(** * property_bot: the listings bot, its handlers and their chat traces

    A shallow embedding of [src/property_bot.py].  The handlers of the bot
    are straight-line glue between two remote services (the chat platform
    and the spreadsheet API); what they compute is the sequence of chat
    calls and log records they make.  The embedding therefore runs every
    handler in a small trace-and-exception monad: a handler is given the
    history of the conversation so far, and returns the events it adds and
    either a value or the Python exception that escaped it.  Whether a
    remote call succeeds is decided by a [World], never by the handler. *)

From Stdlib Require Import String Ascii List Arith NArith Lia Bool.
Import ListNotations.

(** ** Python strings *)

(** A Python [str] is a sequence of Unicode code points. *)
Definition pystr : Type := list N.

(** An ASCII literal of the source, as code points. *)
Definition py (s : string) : pystr :=
  map N_of_ascii (list_ascii_of_string s).

Definition NL : pystr := [10%N].        (* "\n" *)
Definition COMMA : N := 44%N.           (* ',' *)

Fixpoint eqb_list {A} (eqb : A -> A -> bool) (a b : list A) : bool :=
  match a, b with
  | [], [] => true
  | x :: a', y :: b' => eqb x y && eqb_list eqb a' b'
  | _, _ => false
  end.

(** [a == b] on strings. *)
Definition eqb_str : pystr -> pystr -> bool := eqb_list N.eqb.

(** The truth value of a list ([if xs:], [not xs]). *)
Definition truthy {A} (xs : list A) : bool :=
  match xs with [] => false | _ :: _ => true end.

(** [str.isspace] on one code point: the ASCII white space
    (TAB..CR, FS..US, SPACE) and the Unicode white space of CPython's
    [_PyUnicode_IsWhitespace]. *)
Definition isspace (c : N) : bool :=
  ((9 <=? c) && (c <=? 13) || (28 <=? c) && (c <=? 32)
   || (c =? 133) || (c =? 160) || (c =? 5760)
   || (8192 <=? c) && (c <=? 8202)
   || (c =? 8232) || (c =? 8233) || (c =? 8239) || (c =? 8287)
   || (c =? 12288))%N.

Fixpoint lstrip (s : pystr) : pystr :=
  match s with
  | [] => []
  | c :: s' => if isspace c then lstrip s' else s
  end.

Definition rstrip (s : pystr) : pystr := rev (lstrip (rev s)).

(** [s.strip()] *)
Definition strip (s : pystr) : pystr := rstrip (lstrip s).

(** [s.split(sep)] for a one-character separator: never the empty list,
    [''.split(',') == ['']]. *)
Fixpoint split (sep : N) (s : pystr) : list pystr :=
  match s with
  | [] => [[]]
  | c :: s' =>
      if N.eqb c sep then [] :: split sep s'
      else match split sep s' with
           | seg :: rest => (c :: seg) :: rest
           | [] => [[c]]
           end
  end.

(** [sep.join(parts)] *)
Fixpoint join (sep : pystr) (parts : list pystr) : pystr :=
  match parts with
  | [] => []
  | [p] => p
  | p :: rest => p ++ sep ++ join sep rest
  end.

(** [v in text] for strings: [v] occurs in [text] as a contiguous run. *)
Definition occurs_in (v text : pystr) : Prop :=
  exists l r, text = l ++ v ++ r.

(** ** Exceptions and results *)

(** The exception classes the handlers can meet; all derive from
    [Exception], and each carries its [str(e)]. *)
Inductive exn : Type :=
| FileNotFoundError (msg : pystr)
| IndexError (msg : pystr)
| OtherError (msg : pystr).

Definition str_of_exn (e : exn) : pystr :=
  match e with
  | FileNotFoundError m | IndexError m | OtherError m => m
  end.

Definition is_FileNotFoundError (e : exn) : bool :=
  match e with FileNotFoundError _ => true | _ => false end.

Inductive result (A : Type) : Type :=
| Ok (a : A)
| Raise (e : exn).
Arguments Ok {A} a.
Arguments Raise {A} e.

(** [xs[i]]: IndexError when out of range (no negative index is used). *)
Definition getitem {A} (xs : list A) (i : nat) : result A :=
  match nth_error xs i with
  | Some x => Ok x
  | None => Raise (IndexError (py "list index out of range"))
  end.

(** [xs[0] = v]: IndexError on the empty list. *)
Definition setitem0 {A} (xs : list A) (v : A) : result (list A) :=
  match xs with
  | [] => Raise (IndexError (py "list assignment index out of range"))
  | _ :: rest => Ok (v :: rest)
  end.

Definition rbind {A B} (r : result A) (f : A -> result B) : result B :=
  match r with
  | Ok a => f a
  | Raise e => Raise e
  end.

(** ** The listing of one row *)

Definition MONEY_BAG : pystr := [128176%N].          (* U+1F4B0 *)
Definition ROUND_PUSHPIN : pystr := [128205%N].      (* U+1F4CD *)
Definition TRIANGULAR_RULER : pystr := [128208%N].   (* U+1F4D0 *)
Definition BED : pystr := [128719%N; 65039%N].       (* U+1F6CF U+FE0F *)
Definition INFORMATION : pystr := [8505%N; 65039%N]. (* U+2139 U+FE0F *)

(** The f-string of [list_properties] (lines 101-107): it reads
    [row[0]] .. [row[4]] in this order. *)
Definition property_info (row : list pystr) : result pystr :=
  rbind (getitem row 0) (fun price =>
  rbind (getitem row 1) (fun location =>
  rbind (getitem row 2) (fun size =>
  rbind (getitem row 3) (fun bedrooms =>
  rbind (getitem row 4) (fun details =>
  Ok (MONEY_BAG ++ py " Price: " ++ price ++ NL
      ++ ROUND_PUSHPIN ++ py " Location: " ++ location ++ NL
      ++ TRIANGULAR_RULER ++ py " Size: " ++ size ++ NL
      ++ BED ++ py " Bedrooms: " ++ bedrooms ++ NL
      ++ INFORMATION ++ py " Details: " ++ details)))))).

(** [[url.strip() for url in field.split(',')]] (line 108). *)
Definition image_urls (field : pystr) : list pystr :=
  map strip (split COMMA field).

(** The text sent when the media group is refused (line 118). *)
Definition fallback_text (info : pystr) (urls : list pystr) : pystr :=
  info ++ NL ++ NL ++ py "Images: " ++ join (py ", ") urls.

(** ** The chat platform, the spreadsheet and the trace *)

Record InlineKeyboardButton : Type :=
  { button_text : pystr; callback_data : pystr }.

(** An inline keyboard: rows of buttons. *)
Definition InlineKeyboardMarkup : Type := list (list InlineKeyboardButton).

Record InputMediaPhoto : Type :=
  { media : pystr; caption : option pystr }.

(** [InputMediaPhoto(media=url)] and
    [InputMediaPhoto(media=url, caption=text)]. *)
Definition photo (url : pystr) : InputMediaPhoto :=
  {| media := url; caption := None |}.

Definition captioned (url text : pystr) : InputMediaPhoto :=
  {| media := url; caption := Some text |}.

(** The calls the handlers make on the chat platform. *)
Inductive call : Type :=
| answer                                     (* query.answer() *)
| reply_text (text : pystr) (reply_markup : option InlineKeyboardMarkup)
| reply_photo (file : pystr) (photo_caption : pystr)
| reply_media_group (group : list InputMediaPhoto).

Inductive level : Type := INFO | WARNING | ERROR.

(** The records written through [logging]; each keeps the arguments of
    its format string. *)
Inductive record : Type :=
| welcome_image_not_found
| fetching_properties (spreadsheet : pystr)
| using_range (range : pystr)
| fetched_rows (n : nat)
| skipping_row (row : list pystr)
| error_sending_images (err : pystr)
| error_fetching_properties (err : pystr)
| error_spreadsheet_id (spreadsheet : pystr)
| error_range (range : pystr).

(** What a handler leaves behind: a chat call with its outcome
    ([None]: accepted by the platform, [Some e]: it raised [e]), or a
    log record. *)
Inductive event : Type :=
| Called (c : call) (outcome : option exn)
| Logged (l : level) (r : record).

(** Everything outside the program: the configured spreadsheet, the chat
    platform, which answers a call knowing the whole history, the file
    system ([open(path, 'rb')] succeeds or raises), and the spreadsheet
    API, whose read of a sheet and a range either raises or
    returns the response, of which only the ['values'] entry is used
    (absent when the range holds no data). *)
Record World : Type :=
  { SPREADSHEET_ID : pystr;
    chat : list event -> call -> option exn;
    open_rb : pystr -> option exn;
    sheets_get : pystr -> pystr -> result (option (list (list pystr))) }.

(** A handler: from the history to the events it adds and its result. *)
Definition M (A : Type) : Type := list event -> list event * result A.

Definition ret {A} (a : A) : M A := fun _ => ([], Ok a).

Definition bind {A B} (m : M A) (f : A -> M B) : M B :=
  fun h =>
    match m h with
    | (es, Ok a) => let (es', r) := f a (h ++ es) in (es ++ es', r)
    | (es, Raise e) => (es, Raise e)
    end.

Definition lift {A} (r : result A) : M A := fun _ => ([], r).

(** [try: body  except Exception as e: handler e] when [catches] accepts
    every exception, [except FileNotFoundError:] when it accepts only
    that class; an exception that is not accepted goes on. *)
Definition try_except {A} (body : M A) (catches : exn -> bool)
    (handler : exn -> M A) : M A :=
  fun h =>
    match body h with
    | (es, Ok a) => (es, Ok a)
    | (es, Raise e) =>
        if catches e
        then let (es', r) := handler e (h ++ es) in (es ++ es', r)
        else (es, Raise e)
    end.

Definition Exception (_ : exn) : bool := true.

Declare Scope py_scope.
Delimit Scope py_scope with py.
Notation "x <- m ;; k" := (bind m (fun x => k))
  (at level 61, m at next level, right associativity) : py_scope.
Notation "m ;; k" := (bind m (fun _ => k))
  (at level 61, right associativity) : py_scope.
Local Open Scope py_scope.

(** [for x in xs: body x] *)
Fixpoint for_each {A} (xs : list A) (body : A -> M unit) : M unit :=
  match xs with
  | [] => ret tt
  | x :: rest => body x ;; for_each rest body
  end.

Definition events {A} (m : M A) (h : list event) : list event := fst (m h).
Definition returns {A} (m : M A) (h : list event) : result A := snd (m h).

(** The chat calls of a trace, in order, and those the platform accepted. *)
Fixpoint calls (es : list event) : list call :=
  match es with
  | [] => []
  | Called c _ :: rest => c :: calls rest
  | Logged _ _ :: rest => calls rest
  end.

Fixpoint delivered (es : list event) : list call :=
  match es with
  | [] => []
  | Called c None :: rest => c :: delivered rest
  | _ :: rest => delivered rest
  end.

(** ** Configuration *)

Definition RANGE_NAME : pystr := py "Sheet1!A2:F".
Definition WHATSAPP_NUMBER : pystr := py "+60175773070".
Definition WELCOME_IMAGE : pystr := py "welcome_image.jpg".
Definition WELCOME : pystr :=
  py "Welcome to Property Azizi Bot! How can I assist you today?".
Definition NO_PROPERTIES : pystr := py "No properties found.".
Definition FETCH_ERROR : pystr :=
  py "An error occurred while fetching properties. Please try again later.".

Definition get_main_menu_keyboard : InlineKeyboardMarkup :=
  [ [ {| button_text := py "Property Agent Profile";
         callback_data := py "profile" |} ];
    [ {| button_text := py "List of Properties";
         callback_data := py "properties" |} ];
    [ {| button_text := py "Link to WhatsApp";
         callback_data := py "whatsapp" |} ] ].

(** [result.get('values', [])] *)
Definition get_values (response : option (list (list pystr)))
  : list (list pystr) :=
  match response with
  | Some rows => rows
  | None => []
  end.

(** ** The handlers *)

Section Handlers.

Variable w : World.

(** One call on the chat platform: recorded with its outcome, and raising
    when the platform refuses it. *)
Definition send (c : call) : M unit :=
  fun h =>
    match chat w h c with
    | None => ([Called c None], Ok tt)
    | Some e => ([Called c (Some e)], Raise e)
    end.

Definition logging (l : level) (r : record) : M unit :=
  fun _ => ([Logged l r], Ok tt).

Definition open_file (path : pystr) : M unit :=
  fun _ =>
    match open_rb w path with
    | None => ([], Ok tt)
    | Some e => ([], Raise e)
    end.

Definition execute_get (spreadsheet range : pystr)
  : M (option (list (list pystr))) :=
  fun _ => ([], sheets_get w spreadsheet range).

Definition show_main_menu : M unit :=
  send (reply_text (py "Please choose an option:")
          (Some get_main_menu_keyboard)).

Definition start : M unit :=
  try_except
    (open_file WELCOME_IMAGE ;;
     send (reply_photo WELCOME_IMAGE WELCOME))
    is_FileNotFoundError
    (fun _ =>
       logging WARNING welcome_image_not_found ;;
       send (reply_text WELCOME None)) ;;
  show_main_menu.

Definition menu_command : M unit := show_main_menu.

(** The body of the [for row in values] loop (lines 100-122). *)
Definition render_row (row : list pystr) : M unit :=
  if 6 <=? length row then
    info <- lift (property_info row) ;;
    field <- lift (getitem row 5) ;;
    let urls := image_urls field in
    if truthy urls then
      let media_group := map photo urls in
      first <- lift (getitem urls 0) ;;
      media_group <- lift (setitem0 media_group (captioned first info)) ;;
      try_except
        (send (reply_media_group media_group))
        Exception
        (fun img_error =>
           logging ERROR (error_sending_images (str_of_exn img_error)) ;;
           send (reply_text (fallback_text info urls) None))
    else
      send (reply_text info None)
  else
    logging WARNING (skipping_row row).

Definition list_properties : M unit :=
  try_except
    (logging INFO (fetching_properties (SPREADSHEET_ID w)) ;;
     logging INFO (using_range RANGE_NAME) ;;
     response <- execute_get (SPREADSHEET_ID w) RANGE_NAME ;;
     let values := get_values response in
     logging INFO (fetched_rows (length values)) ;;
     if negb (truthy values) then
       send (reply_text NO_PROPERTIES None)
     else
       for_each values render_row ;;
       let whatsapp_link := py "https://wa.me/" ++ WHATSAPP_NUMBER in
       send (reply_text
               (py "These are all the available properties. Contact the agent for more information: "
                  ++ whatsapp_link) None))
    Exception
    (fun e =>
       logging ERROR (error_fetching_properties (str_of_exn e)) ;;
       logging ERROR (error_spreadsheet_id (SPREADSHEET_ID w)) ;;
       logging ERROR (error_range RANGE_NAME) ;;
       send (reply_text FETCH_ERROR None)).

(** [query.data == s]; the data of a callback may be absent ([None]). *)
Definition data_is (data : option pystr) (s : string) : bool :=
  match data with
  | Some d => eqb_str d (py s)
  | None => false
  end.

Definition button_click (data : option pystr) : M unit :=
  send answer ;;
  (if data_is data "profile" then
     send (reply_text
             (py "Here's the Property Agent Profile: [Add profile details here]")
             None)
   else if data_is data "properties" then
     list_properties
   else if data_is data "whatsapp" then
     let whatsapp_link := py "https://wa.me/" ++ WHATSAPP_NUMBER in
     send (reply_text (py "Click here to chat on WhatsApp: " ++ whatsapp_link)
             None)
   else ret tt) ;;
  (* Show the main menu again after handling the button click *)
  send (reply_text (py "What else would you like to do?")
          (Some get_main_menu_keyboard)).

End Handlers.

(** ** Vocabulary of the properties *)

Definition starts_with_space (s : pystr) : bool :=
  match s with
  | c :: _ => isspace c
  | [] => false
  end.

Definition ends_with_space (s : pystr) : bool := starts_with_space (rev s).

(** [u] is [seg] without its leading and trailing white space. *)
Definition trims_to (seg u : pystr) : Prop :=
  exists l r,
    seg = l ++ u ++ r
    /\ forallb isspace l = true /\ forallb isspace r = true
    /\ starts_with_space u = false /\ ends_with_space u = false.

Definition eqb_button (a b : InlineKeyboardButton) : bool :=
  eqb_str (button_text a) (button_text b)
  && eqb_str (callback_data a) (callback_data b).

Definition eqb_keyboard : InlineKeyboardMarkup -> InlineKeyboardMarkup -> bool :=
  eqb_list (eqb_list eqb_button).

(** A menu message: a text reply that carries the main menu keyboard. *)
Definition is_menu (c : call) : bool :=
  match c with
  | reply_text _ (Some keyboard) => eqb_keyboard keyboard get_main_menu_keyboard
  | _ => false
  end.

Definition menus (cs : list call) : nat := List.length (filter is_menu cs).

(** The two menu messages of the program: the one of [show_main_menu]
    and the one that closes a button click. *)
Definition choose_menu : call :=
  reply_text (py "Please choose an option:") (Some get_main_menu_keyboard).

Definition again_menu : call :=
  reply_text (py "What else would you like to do?")
    (Some get_main_menu_keyboard).

(** A greeting: the welcome text, as the caption of a photo or alone. *)
Definition is_greeting (c : call) : bool :=
  match c with
  | reply_photo _ cap => eqb_str cap WELCOME
  | reply_text t None => eqb_str t WELCOME
  | _ => false
  end.

(** Some greeting is followed, later in the list, by a menu message. *)
Fixpoint greets_then_menu (cs : list call) : bool :=
  match cs with
  | [] => false
  | c :: rest => is_greeting c && existsb is_menu rest || greets_then_menu rest
  end.

(** The platform accepts this call whenever it is made. *)
Definition accepts (w : World) (c : call) : Prop :=
  forall h, chat w h c = None.

(** An outcome that [start]'s [except FileNotFoundError] absorbs. *)
Definition absorbed_by_start (o : option exn) : Prop :=
  match o with
  | None => True
  | Some e => is_FileNotFoundError e = true
  end.

(** A platform on which answers and text replies go through and the
    welcome photo either goes through or is missing; media groups and
    the spreadsheet read may fail at will. *)
Record cooperative (w : World) : Prop :=
  { coop_answer : accepts w answer;
    coop_text : forall t m, accepts w (reply_text t m);
    coop_photo : forall h p c, absorbed_by_start (chat w h (reply_photo p c));
    coop_open : forall p, absorbed_by_start (open_rb w p) }.

(** What [list_properties] logs when the read of the spreadsheet raises. *)
Definition failed_fetch_records (w : World) (e : exn) : list event :=
  [Logged INFO (fetching_properties (SPREADSHEET_ID w));
   Logged INFO (using_range RANGE_NAME);
   Logged ERROR (error_fetching_properties (str_of_exn e));
   Logged ERROR (error_spreadsheet_id (SPREADSHEET_ID w));
   Logged ERROR (error_range RANGE_NAME)].

(** A computation that sends no menu message, and one that always returns. *)
Definition no_menu {A} (m : M A) : Prop :=
  forall h, menus (delivered (events m h)) = 0.

Definition succeeds {A} (m : M A) : Prop :=
  forall h, exists a, returns m h = Ok a.

(** ** Sample worlds *)

Definition is_media_group (c : call) : bool :=
  match c with
  | reply_media_group _ => true
  | _ => false
  end.

(** A world given by the outcome of opening the welcome image, the
    outcome of the spreadsheet read, and whether media groups are
    refused; every other chat call is accepted. *)
Definition sample_world (image : option exn)
    (sheet : result (option (list (list pystr)))) (refuse_media : bool)
  : World :=
  {| SPREADSHEET_ID := py "sheet-1";
     chat := fun _ c =>
       if is_media_group c && refuse_media
       then Some (OtherError (py "Bad Request"))
       else None;
     open_rb := fun _ => image;
     sheets_get := fun _ _ => sheet |}.

Definition sample_row : list pystr :=
  [py "RM 500,000"; py "Kuala Lumpur"; py "1200 sqft"; py "3";
   py "Corner lot"; py "a.jpg, b.jpg"].

Definition short_row : list pystr :=
  [py "RM 500,000"; py "Kuala Lumpur"; py "1200 sqft"].

(** ** Further vocabulary: listings, escapes and the guard *)

(** The guard of the loop body, [len(row) >= 6]. *)
Definition renders (row : list pystr) : bool := 6 <=? List.length row.

(** The text that closes a listing run (lines 124-125). *)
Definition CLOSING : pystr :=
  py "These are all the available properties. Contact the agent for more information: "
    ++ py "https://wa.me/" ++ WHATSAPP_NUMBER.

(** [c] is what the user receives for [row]: the media group of its
    image URLs, the first photo captioned with the display text, or the
    fallback text with the same display text and URLs. *)
Definition listing_message (row : list pystr) (c : call) : Prop :=
  exists info field first rest,
    property_info row = Ok info
    /\ getitem row 5 = Ok field
    /\ image_urls field = first :: rest
    /\ (c = reply_media_group (captioned first info :: map photo rest)
        \/ c = reply_text (fallback_text info (first :: rest)) None).

(** The platform accepts every text reply. *)
Definition text_accepting (w : World) : Prop :=
  forall t m, accepts w (reply_text t m).

(** An exception leaves [m] only as the refusal of a chat call other
    than a media group, and that call is the last thing [m] did. *)
Definition escapes_by_refusal {A} (m : M A) : Prop :=
  forall h e,
    returns m h = Raise e ->
    exists es c,
      events m h = es ++ [Called c (Some e)] /\ is_media_group c = false.

(** ** Start-up: the configuration read when the module is loaded *)

Module Startup.

(** The three environment variables, as [os.getenv] returns them. *)
Record Environ : Type :=
  { TELEGRAM_BOT_TOKEN : option pystr;
    GOOGLE_APPLICATION_CREDENTIALS : option pystr;
    GOOGLE_SHEETS_SPREADSHEET_ID : option pystr }.

(** [not x] for a value of [os.getenv]: [None] and [''] are false. *)
Definition unset (x : option pystr) : bool :=
  match x with
  | None | Some [] => true
  | Some (_ :: _) => false
  end.

(** The string held by a variable that passed the check. *)
Definition value_of (x : option pystr) : pystr :=
  match x with
  | Some s => s
  | None => []
  end.

(** The module's three globals once the checks have passed. *)
Record Settings : Type :=
  { TOKEN : pystr; SERVICE_ACCOUNT_FILE : pystr; SPREADSHEET_ID : pystr }.

(** What ends the start-up: a [ValueError] of the checks, or the
    exception of the spreadsheet set-up, raised again. *)
Inductive fatal : Type :=
| ValueError (msg : pystr)
| Reraised (e : exn).

Inductive started (A : Type) : Type :=
| Ready (a : A)
| Aborted (f : fatal).
Arguments Ready {A} a.
Arguments Aborted {A} f.

(** Lines 14-24: the variables are read, then checked in this order. *)
Definition read_settings (env : Environ) : started Settings :=
  let token := TELEGRAM_BOT_TOKEN env in
  let service_account_file := GOOGLE_APPLICATION_CREDENTIALS env in
  let spreadsheet_id := GOOGLE_SHEETS_SPREADSHEET_ID env in
  if unset token then
    Aborted (ValueError (py "No TELEGRAM_BOT_TOKEN found in .env file"))
  else if unset service_account_file then
    Aborted (ValueError (py "No GOOGLE_APPLICATION_CREDENTIALS found in .env file"))
  else if unset spreadsheet_id then
    Aborted (ValueError (py "No GOOGLE_SHEETS_SPREADSHEET_ID found in .env file"))
  else
    Ready {| TOKEN := value_of token;
             SERVICE_ACCOUNT_FILE := value_of service_account_file;
             SPREADSHEET_ID := value_of spreadsheet_id |}.

(** The records logged by the spreadsheet set-up (lines 36-45). *)
Inductive setup_record : Type :=
| loading_service_account (path : pystr)
| loaded_credentials (email : pystr)
| built_sheets_service
| error_setting_up (err : pystr).

Record Credentials : Type := { service_account_email : pystr }.

(** The Google client library: loading the service account file gives
    the credentials or raises, and so does building the service with
    them. *)
Record Google : Type :=
  { from_service_account_file : pystr -> result Credentials;
    build : Credentials -> result unit }.

(** Lines 36-45: the [try] that loads the credentials and builds the
    service; its [except] logs the error and raises it again. *)
Definition setup_sheets (g : Google) (service_account_file : pystr)
  : list (level * setup_record) * started unit :=
  let attempt := (INFO, loading_service_account service_account_file) in
  match from_service_account_file g service_account_file with
  | Raise e =>
      ([attempt; (ERROR, error_setting_up (str_of_exn e))],
       Aborted (Reraised e))
  | Ok creds =>
      let loaded := (INFO, loaded_credentials (service_account_email creds)) in
      match build g creds with
      | Raise e =>
          ([attempt; loaded; (ERROR, error_setting_up (str_of_exn e))],
           Aborted (Reraised e))
      | Ok _ => ([attempt; loaded; (INFO, built_sheets_service)], Ready tt)
      end
  end.

(** The module-level code as a whole: the checks, then the set-up. *)
Definition load_module (env : Environ) (g : Google)
  : list (level * setup_record) * started Settings :=
  match read_settings env with
  | Aborted f => ([], Aborted f)
  | Ready s =>
      match setup_sheets g (SERVICE_ACCOUNT_FILE s) with
      | (log, Ready _) => (log, Ready s)
      | (log, Aborted f) => (log, Aborted f)
      end
  end.

Definition sample_environ : Environ :=
  {| TELEGRAM_BOT_TOKEN := Some (py "123:abc");
     GOOGLE_APPLICATION_CREDENTIALS := Some (py "service.json");
     GOOGLE_SHEETS_SPREADSHEET_ID := Some (py "sheet-1") |}.

Definition sample_google : Google :=
  {| from_service_account_file :=
       fun _ => Ok {| service_account_email := py "bot@project.iam" |};
     build := fun _ => Ok tt |}.

End Startup.

Definition blank_row : list pystr :=
  [py "RM 500,000"; py "Kuala Lumpur"; py "1200 sqft"; py "3";
   py "Corner lot"; py "  "].

(** A world whose platform acknowledges a click and refuses every reply,
    where the welcome image cannot be opened for lack of permission and
    the read of the spreadsheet raises. *)
Definition refusing_world : World :=
  {| SPREADSHEET_ID := py "sheet-1";
     chat := fun _ c =>
       match c with
       | answer => None
       | _ => Some (OtherError (py "Forbidden"))
       end;
     open_rb := fun _ => Some (OtherError (py "Permission denied"));
     sheets_get := fun _ _ =>
       Raise (OtherError (py "The read operation timed out")) |}.

(** How the [try] of [start] ends when it is entered with history [h]:
    [open] comes first, and the photo is sent only when it succeeded. *)
Definition welcome_outcome (w : World) (h : list event) : option exn :=
  match open_rb w WELCOME_IMAGE with
  | Some e => Some e
  | None => chat w h (reply_photo WELCOME_IMAGE WELCOME)
  end.

(** What the loop body leaves in the trace for [row].  A row of six
    fields or more gives the post of its media group: accepted, and then
    nothing more, or refused, and then the ERROR record of the refusal
    and the fallback text.  Any other row gives its WARNING record. *)
Definition listing_trace (row : list pystr) (es : list event) : Prop :=
  if renders row then
    exists info field first rest,
      property_info row = Ok info
      /\ getitem row 5 = Ok field
      /\ image_urls field = first :: rest
      /\ (es = [Called (reply_media_group (captioned first info :: map photo rest))
                  None]
          \/ exists e,
               es = [Called (reply_media_group
                               (captioned first info :: map photo rest))
                       (Some e);
                     Logged ERROR (error_sending_images (str_of_exn e));
                     Called (reply_text (fallback_text info (first :: rest)) None)
                       None])
  else es = [Logged WARNING (skipping_row row)].

(** A world that accepts every answer and every text reply, in which the
    welcome image opens, and which refuses the photo for a reason other
    than a missing file. *)
Definition photo_refusing_world : World :=
  {| SPREADSHEET_ID := py "sheet-1";
     chat := fun _ c =>
       match c with
       | reply_photo _ _ => Some (OtherError (py "Timed out"))
       | _ => None
       end;
     open_rb := fun _ => None;
     sheets_get := fun _ _ => Ok None |}.

(** A world that accepts every reply and refuses to acknowledge a click. *)
Definition answer_refusing_world : World :=
  {| SPREADSHEET_ID := py "sheet-1";
     chat := fun _ c =>
       match c with
       | answer => Some (OtherError (py "Query is too old"))
       | _ => None
       end;
     open_rb := fun _ => None;
     sheets_get := fun _ _ => Ok None |}.

(** ** Facts about the string operations *)

Section StringFacts.

Lemma eqb_list_eq {A} (eqb : A -> A -> bool)
    (eqb_ok : forall x y, eqb x y = true <-> x = y) (a b : list A) :
  eqb_list eqb a b = true <-> a = b.
Proof.
  revert b; induction a as [|x a IH]; intros [|y b]; simpl;
    try (split; intros; congruence).
  rewrite andb_true_iff, eqb_ok, IH.
  split; [intros [-> ->]; reflexivity | intros E; inversion E; auto].
Qed.

Lemma eqb_str_eq (a b : pystr) : eqb_str a b = true <-> a = b.
Proof. apply eqb_list_eq, N.eqb_eq. Qed.

Lemma eqb_str_neq (a b : pystr) : a <> b -> eqb_str a b = false.
Proof.
  intros D; destruct (eqb_str a b) eqn:E; [|reflexivity].
  apply eqb_str_eq in E; contradiction.
Qed.

Lemma split_not_nil (sep : N) (s : pystr) : split sep s <> [].
Proof.
  destruct s as [|c s]; simpl; [discriminate|].
  destruct (N.eqb c sep); [discriminate|].
  destruct (split sep s); discriminate.
Qed.

Lemma join_split (sep : N) (s : pystr) : join [sep] (split sep s) = s.
Proof.
  induction s as [|c s IH]; [reflexivity|].
  simpl split. destruct (N.eqb_spec c sep) as [->|D].
  - pose proof (split_not_nil sep s) as NE.
    destruct (split sep s) as [|seg rest]; [contradiction|].
    change (join [sep] ([] :: seg :: rest))
      with ([] ++ [sep] ++ join [sep] (seg :: rest)).
    rewrite IH; reflexivity.
  - pose proof (split_not_nil sep s) as NE.
    destruct (split sep s) as [|seg rest]; [contradiction|].
    destruct rest as [|seg' rest].
    + simpl in *. congruence.
    + change (join [sep] ((c :: seg) :: seg' :: rest))
        with (c :: (seg ++ [sep] ++ join [sep] (seg' :: rest))).
      change (join [sep] (seg :: seg' :: rest))
        with (seg ++ [sep] ++ join [sep] (seg' :: rest)) in IH.
      rewrite IH; reflexivity.
Qed.

Lemma split_segments_free (sep : N) (s : pystr) :
  Forall (fun seg => ~ In sep seg) (split sep s).
Proof.
  induction s as [|c s IH]; simpl.
  - constructor; [intros []|constructor].
  - destruct (N.eqb_spec c sep) as [->|D].
    + constructor; [intros []|exact IH].
    + destruct (split sep s) as [|seg rest].
      * constructor; [|constructor]. intros [E|[]]. congruence.
      * inversion IH as [|? ? Hseg Hrest]; subst.
        constructor; [|exact Hrest].
        intros [E|I]; [congruence|exact (Hseg I)].
Qed.

Lemma lstrip_spec (s : pystr) :
  exists l, s = l ++ lstrip s
            /\ forallb isspace l = true
            /\ starts_with_space (lstrip s) = false.
Proof.
  induction s as [|c s (l & E & Hl & Hs)].
  - exists []; repeat split.
  - simpl lstrip. destruct (isspace c) eqn:Hc.
    + exists (c :: l); repeat split.
      * simpl; congruence.
      * simpl; rewrite Hc; exact Hl.
      * exact Hs.
    + exists []; repeat split. simpl; exact Hc.
Qed.

Lemma forallb_rev {A} (f : A -> bool) (l : list A) :
  forallb f l = true -> forallb f (rev l) = true.
Proof.
  rewrite !forallb_forall. intros H x I. apply H, in_rev, I.
Qed.

Lemma strip_trims (s : pystr) : trims_to s (strip s).
Proof.
  unfold trims_to, strip, rstrip.
  destruct (lstrip_spec s) as (l & E & Hl & Hs).
  destruct (lstrip_spec (rev (lstrip s))) as (r & E' & Hr & Hs').
  set (t := lstrip s) in *. set (u := lstrip (rev t)) in *.
  assert (Et : t = rev u ++ rev r).
  { rewrite <- rev_app_distr, <- E', rev_involutive; reflexivity. }
  exists l, (rev r). repeat split.
  - rewrite <- Et; exact E.
  - exact Hl.
  - apply forallb_rev, Hr.
  - destruct (rev u) as [|c u'] eqn:Eu; [reflexivity|].
    rewrite Et in Hs; exact Hs.
  - unfold ends_with_space. rewrite rev_involutive; exact Hs'.
Qed.

Lemma occurs_in_join (sep u : pystr) (parts : list pystr) :
  In u parts -> occurs_in u (join sep parts).
Proof.
  induction parts as [|p rest IH]; [intros []|].
  intros [->|I].
  - destruct rest as [|q rest].
    + exists [], []. simpl; rewrite app_nil_r; reflexivity.
    + exists [], (sep ++ join sep (q :: rest)). reflexivity.
  - destruct rest as [|q rest]; [destruct I|].
    destruct (IH I) as (l & r & E).
    exists (p ++ sep ++ l), r.
    change (join sep (p :: q :: rest)) with (p ++ sep ++ join sep (q :: rest)).
    rewrite E, <- !app_assoc; reflexivity.
Qed.

Lemma image_urls_not_nil (field : pystr) : image_urls field <> [].
Proof.
  unfold image_urls. pose proof (split_not_nil COMMA field) as NE.
  destruct (split COMMA field); [contradiction|discriminate].
Qed.

End StringFacts.

(** ** Facts about traces and the monad *)

Section TraceFacts.

Lemma delivered_app (a b : list event) :
  delivered (a ++ b) = delivered a ++ delivered b.
Proof.
  induction a as [|[c [e|]|l r] a IH]; simpl; congruence.
Qed.

Lemma menus_app (a b : list call) : menus (a ++ b) = menus a + menus b.
Proof. unfold menus. rewrite filter_app, length_app; reflexivity. Qed.

Lemma menus_delivered_app (a b : list event) :
  menus (delivered (a ++ b)) = menus (delivered a) + menus (delivered b).
Proof. rewrite delivered_app, menus_app; reflexivity. Qed.

Lemma no_menu_ret {A} (a : A) : no_menu (ret a).
Proof. intros h; reflexivity. Qed.

Lemma no_menu_lift {A} (r : result A) : no_menu (lift r).
Proof. intros h; reflexivity. Qed.

Lemma no_menu_logging (l : level) (r : record) : no_menu (logging l r).
Proof. intros h; reflexivity. Qed.

Lemma no_menu_execute_get (w : World) (a b : pystr) :
  no_menu (execute_get w a b).
Proof. intros h; reflexivity. Qed.

Lemma no_menu_send (w : World) (c : call) :
  is_menu c = false -> no_menu (send w c).
Proof.
  intros Hc h. unfold events, send.
  destruct (chat w h c); simpl; [reflexivity|].
  unfold menus; simpl; rewrite Hc; reflexivity.
Qed.

Lemma no_menu_bind {A B} (m : M A) (f : A -> M B) :
  no_menu m -> (forall a, no_menu (f a)) -> no_menu (bind m f).
Proof.
  intros Hm Hf h. specialize (Hm h). unfold events, bind in *.
  destruct (m h) as [es [a|e]]; simpl in *; [|exact Hm].
  specialize (Hf a (h ++ es)). unfold events in Hf.
  destruct (f a (h ++ es)) as [es' r]; simpl in *.
  rewrite menus_delivered_app, Hm, Hf; reflexivity.
Qed.

Lemma no_menu_try_except {A} (body : M A) (catches : exn -> bool)
    (handler : exn -> M A) :
  no_menu body -> (forall e, no_menu (handler e)) ->
  no_menu (try_except body catches handler).
Proof.
  intros Hm Hf h. specialize (Hm h). unfold events, try_except in *.
  destruct (body h) as [es [a|e]]; simpl in *; [exact Hm|].
  destruct (catches e); simpl; [|exact Hm].
  specialize (Hf e (h ++ es)). unfold events in Hf.
  destruct (handler e (h ++ es)) as [es' r]; simpl in *.
  rewrite menus_delivered_app, Hm, Hf; reflexivity.
Qed.

Lemma no_menu_for_each {A} (xs : list A) (body : A -> M unit) :
  (forall x, no_menu (body x)) -> no_menu (for_each xs body).
Proof.
  intros Hb. induction xs as [|x xs IH]; simpl.
  - apply no_menu_ret.
  - apply no_menu_bind; [apply Hb|intros _; exact IH].
Qed.

Lemma succeeds_ret {A} (a : A) : succeeds (ret a).
Proof. intros h; exists a; reflexivity. Qed.

Lemma succeeds_logging (l : level) (r : record) : succeeds (logging l r).
Proof. intros h; exists tt; reflexivity. Qed.

Lemma succeeds_send (w : World) (c : call) :
  accepts w c -> succeeds (send w c).
Proof.
  intros Hc h; exists tt. unfold returns, send. rewrite Hc; reflexivity.
Qed.

Lemma succeeds_bind {A B} (m : M A) (f : A -> M B) :
  succeeds m -> (forall a, succeeds (f a)) -> succeeds (bind m f).
Proof.
  intros Hm Hf h. destruct (Hm h) as [a Ha]. unfold returns, bind in *.
  destruct (m h) as [es r]; simpl in Ha; subst r.
  destruct (Hf a (h ++ es)) as [b Hb]. unfold returns in Hb.
  destruct (f a (h ++ es)) as [es' r]; simpl in *. exists b; exact Hb.
Qed.

Lemma succeeds_try_except {A} (body : M A) (handler : exn -> M A) :
  (forall e, succeeds (handler e)) ->
  succeeds (try_except body Exception handler).
Proof.
  intros Hf h. unfold returns, try_except.
  destruct (body h) as [es [a|e]]; simpl; [exists a; reflexivity|].
  destruct (Hf e (h ++ es)) as [b Hb]. unfold returns in Hb.
  destruct (handler e (h ++ es)) as [es' r]; simpl in *. exists b; exact Hb.
Qed.

Lemma bind_lift_ok {A B} (a : A) (f : A -> M B) (h : list event) :
  bind (lift (Ok a)) f h = f a h.
Proof.
  unfold bind, lift. rewrite app_nil_r. destruct (f a h); reflexivity.
Qed.

(** What a computation that sends no menu and returns adds in front of
    a continuation: nothing to the count of menus. *)
Lemma menus_bind {A B} (m : M A) (f : A -> M B) (h : list event) :
  no_menu m -> succeeds m ->
  exists a es, m h = (es, Ok a)
    /\ menus (delivered (events (bind m f) h))
       = menus (delivered (events (f a) (h ++ es))).
Proof.
  intros Hn Hs. specialize (Hn h). destruct (Hs h) as [a Ha].
  unfold events, returns, bind in *.
  destruct (m h) as [es r]; simpl in *; subst r.
  exists a, es; split; [reflexivity|].
  destruct (f a (h ++ es)) as [es' r]; simpl.
  rewrite menus_delivered_app, Hn; reflexivity.
Qed.

End TraceFacts.

(** ** Facts about the handlers *)

Section HandlerFacts.

Variable w : World.

Lemma long_row (row : list pystr) :
  6 <= List.length row ->
  exists a b c d e f rest, row = a :: b :: c :: d :: e :: f :: rest.
Proof.
  intros H.
  destruct row as [|a [|b [|c [|d [|e [|f rest]]]]]]; simpl in H; try lia.
  exists a, b, c, d, e, f, rest; reflexivity.
Qed.

(** On a row of six fields or more the loop body is the guarded post of
    the media group: the [else] branches are not taken and no index is
    out of range. *)
Lemma render_row_long (row : list pystr) :
  6 <= List.length row ->
  exists info field first rest,
    property_info row = Ok info
    /\ getitem row 5 = Ok field
    /\ image_urls field = first :: rest
    /\ forall h,
        render_row w row h
        = try_except
            (send w (reply_media_group (captioned first info :: map photo rest)))
            Exception
            (fun img_error =>
               bind (logging ERROR (error_sending_images (str_of_exn img_error)))
                 (fun _ =>
                    send w (reply_text (fallback_text info (first :: rest)) None)))
            h.
Proof.
  intros H. destruct (long_row row H) as (a & b & c & d & e & f & tl & ->).
  pose proof (image_urls_not_nil f) as NE.
  destruct (image_urls f) as [|first rest] eqn:Eu; [contradiction|].
  assert (Ei : exists info,
             property_info (a :: b :: c :: d :: e :: f :: tl) = Ok info)
    by (eexists; reflexivity).
  destruct Ei as [info Ei].
  exists info, f, first, rest. split; [exact Ei|].
  split; [reflexivity|]. split; [exact Eu|].
  intros h. unfold render_row.
  change (6 <=? List.length (a :: b :: c :: d :: e :: f :: tl)) with true.
  cbv iota. rewrite Ei, bind_lift_ok.
  change (getitem (a :: b :: c :: d :: e :: f :: tl) 5) with (Ok f).
  rewrite bind_lift_ok. cbv zeta. rewrite Eu.
  change (truthy (first :: rest)) with true. cbv iota.
  change (getitem (first :: rest) 0) with (Ok first).
  rewrite bind_lift_ok.
  change (setitem0 (map photo (first :: rest)) (captioned first info))
    with (Ok (captioned first info :: map photo rest)).
  rewrite bind_lift_ok. reflexivity.
Qed.

Lemma render_row_short (row : list pystr) (h : list event) :
  List.length row < 6 ->
  render_row w row h = ([Logged WARNING (skipping_row row)], Ok tt).
Proof.
  intros H. unfold render_row.
  destruct (Nat.leb_spec 6 (List.length row)); [lia|reflexivity].
Qed.

Lemma no_menu_render_row (row : list pystr) : no_menu (render_row w row).
Proof.
  unfold render_row. destruct (6 <=? List.length row).
  - apply no_menu_bind; [apply no_menu_lift|intros info].
    apply no_menu_bind; [apply no_menu_lift|intros field].
    cbv zeta. destruct (truthy (image_urls field)).
    + apply no_menu_bind; [apply no_menu_lift|intros first].
      apply no_menu_bind; [apply no_menu_lift|intros group].
      apply no_menu_try_except; [apply no_menu_send; reflexivity|intros e].
      apply no_menu_bind; [apply no_menu_logging|intros _].
      apply no_menu_send; reflexivity.
    + apply no_menu_send; reflexivity.
  - apply no_menu_logging.
Qed.

Lemma no_menu_list_properties : no_menu (list_properties w).
Proof.
  unfold list_properties. apply no_menu_try_except.
  - apply no_menu_bind; [apply no_menu_logging|intros _].
    apply no_menu_bind; [apply no_menu_logging|intros _].
    apply no_menu_bind; [apply no_menu_execute_get|intros response].
    cbv zeta.
    apply no_menu_bind; [apply no_menu_logging|intros _].
    destruct (negb (truthy (get_values response))).
    + apply no_menu_send; reflexivity.
    + apply no_menu_bind; [|intros _; apply no_menu_send; reflexivity].
      apply no_menu_for_each, no_menu_render_row.
  - intros e.
    apply no_menu_bind; [apply no_menu_logging|intros _].
    apply no_menu_bind; [apply no_menu_logging|intros _].
    apply no_menu_bind; [apply no_menu_logging|intros _].
    apply no_menu_send; reflexivity.
Qed.

(** The catch-all of [list_properties] turns every failure into the
    generic reply: the handler returns as soon as that reply goes
    through. *)
Lemma succeeds_list_properties :
  accepts w (reply_text FETCH_ERROR None) -> succeeds (list_properties w).
Proof.
  intros Hacc. unfold list_properties. apply succeeds_try_except. intros e.
  apply succeeds_bind; [apply succeeds_logging|intros _].
  apply succeeds_bind; [apply succeeds_logging|intros _].
  apply succeeds_bind; [apply succeeds_logging|intros _].
  apply succeeds_send, Hacc.
Qed.

End HandlerFacts.

(** ** The listing formatter *)

Section Formatter.

Lemma occurs_in_here (v r : pystr) : occurs_in v (v ++ r).
Proof. exists [], r; reflexivity. Qed.

Lemma occurs_in_self (v : pystr) : occurs_in v v.
Proof. exists [], []; simpl; rewrite app_nil_r; reflexivity. Qed.

Lemma occurs_in_later (v p t : pystr) : occurs_in v t -> occurs_in v (p ++ t).
Proof.
  intros (l & r & ->). exists (p ++ l), r. rewrite <- app_assoc; reflexivity.
Qed.

Lemma map_media_photo (urls : list pystr) : map media (map photo urls) = urls.
Proof. induction urls as [|u urls IH]; simpl; congruence. Qed.

(** C1. For every row of at least six fields the formatter yields a
    display text; the text is not empty and contains the price, the
    location, the size, the bedrooms and the details ([row[0]] ..
    [row[4]]); and it is the caption under which the renderer posts the
    listing. *)
Theorem display_text_has_fields (row : list pystr)
    (Hlen : 6 <= List.length row) :
  exists info,
    property_info row = Ok info
    /\ info <> []
    /\ (forall i, i < 5 ->
          exists v, nth_error row i = Some v /\ occurs_in v info)
    /\ forall w h, exists url others o more,
         events (render_row w row) h
         = Called (reply_media_group (captioned url info :: others)) o :: more.
Proof.
  destruct (long_row row Hlen) as (a & b & c & d & e & f & tl & ->).
  eexists. split; [reflexivity|].
  split; [simpl; discriminate|]. split.
  - intros i Hi.
    destruct i as [|[|[|[|[|i]]]]]; [| | | | |lia]; cbn [nth_error];
      eexists; (split; [reflexivity|]);
      repeat first [ apply occurs_in_self
                   | apply occurs_in_here
                   | apply occurs_in_later ].
  - intros w h.
    destruct (render_row_long w (a :: b :: c :: d :: e :: f :: tl) Hlen)
      as (info & field & first & rest & Ei & Ef & Eu & Erun).
    cbv [property_info rbind getitem nth_error] in Ei. injection Ei as <-.
    unfold events. rewrite Erun. unfold try_except, send.
    destruct (chat w h _) as [err|]; cbn [fst Exception].
    + unfold bind, logging, send.
      destruct (chat w _ _); cbn [fst app]; repeat eexists.
    + repeat eexists.
Qed.

Lemma display_text_has_fields_witness :
  6 <= List.length sample_row
  /\ exists info,
       property_info sample_row = Ok info
       /\ info <> []
       /\ (forall i, i < 5 ->
             exists v, nth_error sample_row i = Some v /\ occurs_in v info)
       /\ forall w h, exists url others o more,
            events (render_row w sample_row) h
            = Called (reply_media_group (captioned url info :: others)) o
                :: more.
Proof.
  split; [simpl; lia|].
  apply (display_text_has_fields sample_row). simpl; lia.
Defined.

(** C2. A row of fewer than six fields is skipped: the loop body only
    logs it, makes no call on the chat platform and returns, so the loop
    goes on with the rows that follow. *)
Theorem short_row_skipped (w : World) (row : list pystr) (h : list event)
    (Hlen : List.length row < 6) :
  render_row w row h = ([Logged WARNING (skipping_row row)], Ok tt)
  /\ calls (events (render_row w row) h) = []
  /\ forall rows,
       calls (events (for_each (row :: rows) (render_row w)) h)
       = calls (events (for_each rows (render_row w))
                  (h ++ [Logged WARNING (skipping_row row)])).
Proof.
  pose proof (render_row_short w row h Hlen) as E.
  split; [exact E|]. split.
  - unfold events; rewrite E; reflexivity.
  - intros rows. unfold events. cbn [for_each]. unfold bind at 1. rewrite E.
    destruct (for_each rows (render_row w) _) as [es r]; reflexivity.
Qed.

Lemma short_row_skipped_witness :
  List.length short_row < 6
  /\ calls (events (render_row (sample_world None (Ok None) false) short_row) [])
     = [].
Proof.
  split; [simpl; lia|].
  apply (short_row_skipped (sample_world None (Ok None) false) short_row []).
  simpl; lia.
Defined.

(** C3. The image URLs of a listing are the comma-separated segments of
    the field, each without its leading and trailing white space, in
    order: ["a.jpg, b.jpg"] gives [["a.jpg"; "b.jpg"]], and for every
    rendered row the field [row[5]] (the last one of a six-column row)
    is the segments joined by commas, no segment holds a comma, and the
    URLs are the trimmed segments one for one. *)
Theorem image_urls_split_and_trimmed :
  image_urls (py "a.jpg, b.jpg") = [py "a.jpg"; py "b.jpg"]
  /\ forall row, 6 <= List.length row ->
       exists field segments,
         getitem row 5 = Ok field
         /\ (List.length row = 6 -> last row [] = field)
         /\ join [COMMA] segments = field
         /\ Forall (fun seg => ~ In COMMA seg) segments
         /\ Forall2 trims_to segments (image_urls field).
Proof.
  split; [reflexivity|].
  intros row Hlen.
  destruct (long_row row Hlen) as (a & b & c & d & e & f & tl & ->).
  exists f, (split COMMA f). split; [reflexivity|]. split.
  - intros E. destruct tl; [reflexivity|simpl in E; lia].
  - split; [apply join_split|]. split; [apply split_segments_free|].
    unfold image_urls. induction (split COMMA f) as [|seg segs IH]; simpl.
    + constructor.
    + constructor; [apply strip_trims|exact IH].
Qed.

Lemma image_urls_split_and_trimmed_witness :
  6 <= List.length sample_row
  /\ exists field segments,
       getitem sample_row 5 = Ok field
       /\ (List.length sample_row = 6 -> last sample_row [] = field)
       /\ join [COMMA] segments = field
       /\ Forall (fun seg => ~ In COMMA seg) segments
       /\ Forall2 trims_to segments (image_urls field).
Proof.
  split; [simpl; lia|].
  apply (proj2 image_urls_split_and_trimmed sample_row). simpl; lia.
Defined.

(** C4. When the post of a listing's media group is refused, the loop
    body makes exactly one more call: a plain text reply.  Its text
    contains the display text that was the caption of the refused group
    and every image URL of the listing. *)
Theorem refused_media_group_falls_back (w : World) (row : list pystr)
    (h : list event) (group : list InputMediaPhoto) (err : exn)
    (Hrefused : In (Called (reply_media_group group) (Some err))
                   (events (render_row w row) h)) :
  exists info field text o,
    property_info row = Ok info
    /\ getitem row 5 = Ok field
    /\ map media group = image_urls field
    /\ option_map caption (hd_error group) = Some (Some info)
    /\ events (render_row w row) h
       = [Called (reply_media_group group) (Some err);
          Logged ERROR (error_sending_images (str_of_exn err));
          Called (reply_text text None) o]
    /\ calls (events (render_row w row) h)
       = [reply_media_group group; reply_text text None]
    /\ occurs_in info text
    /\ Forall (fun url => occurs_in url text) (image_urls field).
Proof.
  destruct (Nat.leb_spec 6 (List.length row)) as [Hlen|Hlen].
  - destruct (render_row_long w row Hlen)
      as (info & field & first & rest & Ei & Ef & Eu & Erun).
    unfold events in *. rewrite Erun in *. unfold try_except, send in *.
    destruct (chat w h _) as [e0|] eqn:Ec; cbn [fst Exception] in *.
    + unfold bind, logging, send in *.
      match goal with
      | |- context [chat w ?h' (reply_text ?t None)] =>
          set (o := chat w h' (reply_text t None)) in *
      end.
      assert (Eg : group = captioned first info :: map photo rest /\ err = e0).
      { destruct o; cbn [fst app] in Hrefused;
          destruct Hrefused as [E|[E|[E|[]]]];
          try discriminate E; injection E as <- <-; split; reflexivity. }
      destruct Eg as [-> ->].
      exists info, field, (fallback_text info (first :: rest)), o.
      split; [exact Ei|]. split; [exact Ef|].
      split; [simpl; rewrite map_media_photo, Eu; reflexivity|].
      split; [reflexivity|].
      split; [destruct o; reflexivity|].
      split; [destruct o; reflexivity|].
      split; [apply occurs_in_here|].
      rewrite Eu. apply Forall_forall. intros url Hin.
      unfold fallback_text. do 4 apply occurs_in_later.
      apply occurs_in_join, Hin.
    + destruct Hrefused as [E|[]]; discriminate E.
  - unfold events in Hrefused.
    rewrite (render_row_short w row h Hlen) in Hrefused.
    destruct Hrefused as [D|[]]; discriminate D.
Qed.

Lemma refused_media_group_falls_back_witness :
  let w := sample_world None (Ok None) true in
  exists group err,
    In (Called (reply_media_group group) (Some err))
       (events (render_row w sample_row) [])
    /\ exists info field text o,
         property_info sample_row = Ok info
         /\ getitem sample_row 5 = Ok field
         /\ map media group = image_urls field
         /\ option_map caption (hd_error group) = Some (Some info)
         /\ events (render_row w sample_row) []
            = [Called (reply_media_group group) (Some err);
               Logged ERROR (error_sending_images (str_of_exn err));
               Called (reply_text text None) o]
         /\ calls (events (render_row w sample_row) [])
            = [reply_media_group group; reply_text text None]
         /\ occurs_in info text
         /\ Forall (fun url => occurs_in url text) (image_urls field).
Proof.
  intros w. eexists. eexists. split.
  - vm_compute. left. reflexivity.
  - apply (refused_media_group_falls_back w sample_row [] _ _).
    vm_compute. left. reflexivity.
Defined.

Lemma fallback_text_longer (info : pystr) (urls : list pystr) :
  fallback_text info urls <> info.
Proof.
  intros E. apply (f_equal (@List.length N)) in E.
  unfold fallback_text in E. rewrite !length_app in E. simpl in E. lia.
Qed.

(** C9. Splitting never gives the empty list, so the list of image URLs
    is true as a condition; hence for every row of at least six fields
    the loop body begins with the post of a media group that is not
    empty, and never sends the display text alone. *)
Theorem media_group_always_attempted :
  (forall sep s, split sep s <> [])
  /\ (forall field, truthy (image_urls field) = true)
  /\ forall w row h, 6 <= List.length row ->
       exists group o more,
         group <> []
         /\ events (render_row w row) h
            = Called (reply_media_group group) o :: more
         /\ forall info, property_info row = Ok info ->
              ~ In (reply_text info None)
                  (calls (events (render_row w row) h)).
Proof.
  split; [exact split_not_nil|]. split.
  - intros field. pose proof (image_urls_not_nil field) as NE.
    destruct (image_urls field); [contradiction|reflexivity].
  - intros w row h Hlen.
    destruct (render_row_long w row Hlen)
      as (info & field & first & rest & Ei & Ef & Eu & Erun).
    unfold events. rewrite Erun. unfold try_except, send.
    destruct (chat w h _) as [e0|]; cbn [fst Exception].
    + unfold bind, logging, send.
      destruct (chat w _ _); cbn [fst app];
        (eexists; eexists; eexists; split; [|split; [reflexivity|]];
         [discriminate|]);
        intros info' Ei'; rewrite Ei in Ei'; injection Ei' as <-;
        cbn [calls]; intros [D|[D|[]]]; try discriminate D;
        injection D as D; exact (fallback_text_longer _ _ D).
    + eexists; eexists; eexists; split; [|split; [reflexivity|]];
        [discriminate|].
      intros info' _ [D|[]]; discriminate D.
Qed.

Lemma media_group_always_attempted_witness :
  let w := sample_world None (Ok None) true in
  6 <= List.length sample_row
  /\ exists group o more,
       group <> []
       /\ events (render_row w sample_row) []
          = Called (reply_media_group group) o :: more
       /\ forall info, property_info sample_row = Ok info ->
            ~ In (reply_text info None)
                (calls (events (render_row w sample_row) [])).
Proof.
  intros w. split; [simpl; lia|].
  apply (proj2 (proj2 media_group_always_attempted) w sample_row []).
  simpl; lia.
Defined.

End Formatter.

(** ** The listings handler *)

Section Listings.

(** C5. When the read of the spreadsheet returns no rows (no ['values']
    entry, or an empty one), the listings handler sends one reply, which
    says that no properties were found; it posts no listing and no
    closing contact message, and returns. *)
Theorem empty_sheet_sole_reply (w : World) (h : list event)
    (response : option (list (list pystr)))
    (Hfetch : sheets_get w (SPREADSHEET_ID w) RANGE_NAME = Ok response)
    (Hempty : get_values response = [])
    (Hsent : accepts w (reply_text NO_PROPERTIES None)) :
  list_properties w h
  = ([Logged INFO (fetching_properties (SPREADSHEET_ID w));
      Logged INFO (using_range RANGE_NAME);
      Logged INFO (fetched_rows 0);
      Called (reply_text NO_PROPERTIES None) None], Ok tt)
  /\ calls (events (list_properties w) h)
     = [reply_text (py "No properties found.") None].
Proof.
  assert (E : list_properties w h
              = ([Logged INFO (fetching_properties (SPREADSHEET_ID w));
                  Logged INFO (using_range RANGE_NAME);
                  Logged INFO (fetched_rows 0);
                  Called (reply_text NO_PROPERTIES None) None], Ok tt)).
  { unfold list_properties, try_except, bind, logging, execute_get, send.
    cbn [fst snd app]. rewrite Hfetch. cbn [app]. rewrite Hempty.
    cbn [truthy negb List.length]. rewrite Hsent. reflexivity. }
  split; [exact E|]. unfold events. rewrite E. reflexivity.
Qed.

Lemma empty_sheet_sole_reply_witness :
  let w := sample_world None (Ok None) false in
  calls (events (list_properties w) [])
  = [reply_text (py "No properties found.") None].
Proof.
  intros w.
  apply (empty_sheet_sole_reply w [] None);
    [reflexivity | reflexivity | intros h; reflexivity].
Defined.

(** C8. When the read of the spreadsheet raises, whatever the exception,
    the listings handler catches it and logs it, and the only call it
    makes on the chat platform is the generic error message; the handler
    then ends as that call does, so it returns normally as soon as the
    platform accepts the message, and the exception of the read never
    leaves the handler on its own. *)
Theorem fetch_failure_reported (w : World) (h : list event) (e : exn)
    (Hfetch : sheets_get w (SPREADSHEET_ID w) RANGE_NAME = Raise e) :
  calls (events (list_properties w) h)
  = [reply_text
       (py "An error occurred while fetching properties. Please try again later.")
       None]
  /\ returns (list_properties w) h
     = match chat w (h ++ failed_fetch_records w e) (reply_text FETCH_ERROR None) with
       | None => Ok tt
       | Some e' => Raise e'
       end
  /\ (accepts w (reply_text FETCH_ERROR None) ->
      list_properties w h
      = (failed_fetch_records w e ++ [Called (reply_text FETCH_ERROR None) None], Ok tt)).
Proof.
  set (logged := failed_fetch_records w e).
  assert (E : list_properties w h
              = match chat w (h ++ logged) (reply_text FETCH_ERROR None) with
                | None =>
                    (logged ++ [Called (reply_text FETCH_ERROR None) None],
                     Ok tt)
                | Some e' =>
                    (logged ++ [Called (reply_text FETCH_ERROR None) (Some e')],
                     Raise e')
                end).
  { unfold list_properties, try_except, bind, logging, execute_get, send.
    cbn [fst snd app]. rewrite Hfetch. cbn [app Exception].
    rewrite <- !app_assoc. cbn [app].
    change (h ++ _) with (h ++ logged).
    destruct (chat w (h ++ logged) (reply_text FETCH_ERROR None));
      reflexivity. }
  unfold events, returns. rewrite E. split; [|split].
  - destruct (chat w (h ++ logged) _); reflexivity.
  - destruct (chat w (h ++ logged) _); reflexivity.
  - intros Hsent. rewrite Hsent. reflexivity.
Qed.

Lemma fetch_failure_reported_witness :
  let w := sample_world None
             (Raise (OtherError (py "The read operation timed out"))) false in
  calls (events (list_properties w) []) = [reply_text FETCH_ERROR None]
  /\ returns (list_properties w) [] = Ok tt
  /\ events (list_properties w) []
     = failed_fetch_records w (OtherError (py "The read operation timed out"))
         ++ [Called (reply_text FETCH_ERROR None) None].
Proof.
  intros w.
  destruct (fetch_failure_reported w []
              (OtherError (py "The read operation timed out")))
    as (Hcalls & Hret & Hrun); [reflexivity|].
  split; [exact Hcalls|]. split; [exact Hret|].
  unfold events. rewrite Hrun; [reflexivity|]. intros h; reflexivity.
Defined.

End Listings.

(** ** The dispatcher: commands and button clicks *)

Section Dispatcher.

Lemma data_is_false (data : option pystr) (s : string) :
  data <> Some (py s) -> data_is data s = false.
Proof.
  intros D. destruct data as [d|]; [|reflexivity]. simpl.
  apply eqb_str_neq. congruence.
Qed.

Lemma menu_command_run (w : World) (h : list event) :
  accepts w choose_menu ->
  menu_command w h = ([Called choose_menu None], Ok tt).
Proof.
  intros Hacc. unfold menu_command, show_main_menu, send.
  change (reply_text (py "Please choose an option:")
            (Some get_main_menu_keyboard)) with choose_menu.
  rewrite Hacc. reflexivity.
Qed.

Lemma menus_send_le (w : World) (c : call) (h : list event) :
  menus (delivered (events (send w c) h)) <= 1.
Proof.
  unfold events, send. destruct (chat w h c); cbn [fst delivered].
  - unfold menus; simpl; lia.
  - unfold menus; simpl. destruct (is_menu c); simpl; lia.
Qed.

Lemma menus_bind_le {A B} (m : M A) (f : A -> M B) (n : nat) :
  no_menu m ->
  (forall a h, menus (delivered (events (f a) h)) <= n) ->
  forall h, menus (delivered (events (bind m f) h)) <= n.
Proof.
  intros Hm Hf h. specialize (Hm h). unfold events, bind in *.
  destruct (m h) as [es [a|e]]; simpl in *; [|lia].
  specialize (Hf a (h ++ es)). unfold events in Hf.
  destruct (f a (h ++ es)) as [es' r]; simpl in *.
  rewrite menus_delivered_app, Hm. exact Hf.
Qed.

Lemma no_menu_open_file (w : World) (path : pystr) : no_menu (open_file w path).
Proof.
  intros h. unfold events, open_file. destruct (open_rb w path); reflexivity.
Qed.

(** The greeting of [start], whichever way it goes, holds no menu. *)
Lemma no_menu_greeting (w : World) :
  no_menu
    (try_except
       (bind (open_file w WELCOME_IMAGE)
          (fun _ => send w (reply_photo WELCOME_IMAGE WELCOME)))
       is_FileNotFoundError
       (fun _ =>
          bind (logging WARNING welcome_image_not_found)
            (fun _ => send w (reply_text WELCOME None)))).
Proof.
  apply no_menu_try_except.
  - apply no_menu_bind; [apply no_menu_open_file|intros _].
    apply no_menu_send; reflexivity.
  - intros e. apply no_menu_bind; [apply no_menu_logging|intros _].
    apply no_menu_send; reflexivity.
Qed.

Lemma no_menu_chosen_handler (w : World) (data : option pystr) :
  no_menu
    (if data_is data "profile" then
       send w
         (reply_text
            (py "Here's the Property Agent Profile: [Add profile details here]")
            None)
     else if data_is data "properties" then list_properties w
     else if data_is data "whatsapp" then
       send w
         (reply_text
            (py "Click here to chat on WhatsApp: "
               ++ py "https://wa.me/" ++ WHATSAPP_NUMBER) None)
     else ret tt).
Proof.
  destruct (data_is data "profile"); [apply no_menu_send; reflexivity|].
  destruct (data_is data "properties"); [apply no_menu_list_properties|].
  destruct (data_is data "whatsapp"); [apply no_menu_send; reflexivity|].
  apply no_menu_ret.
Qed.

Lemma menus_click (w : World) (h : list event) (data : option pystr) :
  accepts w answer -> text_accepting w ->
  menus (delivered (events (button_click w data) h)) = 1.
Proof.
  intros Hanswer Htext. unfold button_click.
  match goal with
  | |- context [bind (send w answer) ?k] =>
      destruct (menus_bind (send w answer) k h) as (a & es & _ & ->)
  end.
  { apply no_menu_send; reflexivity. }
  { apply succeeds_send, Hanswer. }
  cbv beta.
  match goal with
  | |- context [bind ?m ?k] =>
      destruct (menus_bind m k (h ++ es)) as (a' & es' & _ & ->)
  end.
  { apply no_menu_chosen_handler. }
  { destruct (data_is data "profile"); [apply succeeds_send, Htext|].
    destruct (data_is data "properties");
      [apply succeeds_list_properties, Htext|].
    destruct (data_is data "whatsapp"); [apply succeeds_send, Htext|].
    apply succeeds_ret. }
  cbv beta. unfold events, send. rewrite Htext. reflexivity.
Qed.

(** C6, as the specification has it, on two platforms that accept every
    text reply, the menu included: after [/start] no menu is shown when
    the platform refuses the welcome photo, and after a click no menu is
    shown when it refuses to acknowledge the click. *)
Lemma menu_missing_after_refused_photo_or_answer :
  chat photo_refusing_world
    [Called (reply_photo WELCOME_IMAGE WELCOME)
       (Some (OtherError (py "Timed out")))] choose_menu = None
  /\ menus (delivered (events (start photo_refusing_world) [])) = 0
  /\ chat answer_refusing_world
       [Called answer (Some (OtherError (py "Query is too old")))] again_menu
     = None
  /\ menus (delivered
              (events (button_click answer_refusing_world (Some (py "profile")))
                 [])) = 0
  /\ ~ (menus (delivered (events (start photo_refusing_world) [])) = 1
        /\ menus (delivered
                    (events (button_click answer_refusing_world
                               (Some (py "profile"))) [])) = 1).
Proof.
  split; [reflexivity|]. split; [reflexivity|].
  split; [reflexivity|]. split; [reflexivity|].
  intros [H _]. vm_compute in H. discriminate H.
Qed.

(** C6, amended. The main menu is never shown more than once for a
    command or a click.  After [/menu] it is shown exactly once as soon
    as the platform accepts the menu message.  After [/start] it is
    shown exactly once when the platform accepts the menu and the text
    greeting and the welcome photo goes through or fails with
    FileNotFoundError; when the photo step fails with any other error,
    no menu is shown.  After a button click it is shown exactly once
    when the platform accepts the acknowledgement and the text replies,
    whatever the button, and whether or not the spreadsheet read or a
    media group failed on the way; when the acknowledgement is refused,
    no menu is shown. *)
Theorem menu_shown_once (w : World) (h : list event) :
  (menus (delivered (events (start w) h)) <= 1
   /\ menus (delivered (events (menu_command w) h)) <= 1
   /\ forall data, menus (delivered (events (button_click w data) h)) <= 1)
  /\ (accepts w choose_menu ->
      menus (delivered (events (menu_command w) h)) = 1)
  /\ (accepts w choose_menu ->
      accepts w (reply_text WELCOME None) ->
      absorbed_by_start (welcome_outcome w h) ->
      menus (delivered (events (start w) h)) = 1)
  /\ (forall e,
        welcome_outcome w h = Some e ->
        is_FileNotFoundError e = false ->
        menus (delivered (events (start w) h)) = 0)
  /\ (accepts w answer ->
      text_accepting w ->
      forall data, menus (delivered (events (button_click w data) h)) = 1)
  /\ (forall data,
        chat w h answer <> None ->
        menus (delivered (events (button_click w data) h)) = 0).
Proof.
  split; [split; [|split]|].
  - unfold start. apply menus_bind_le; [apply no_menu_greeting|].
    intros _ h'. apply menus_send_le.
  - apply menus_send_le.
  - intros data. unfold button_click.
    apply menus_bind_le; [apply no_menu_send; reflexivity|intros _ h'].
    apply menus_bind_le; [apply no_menu_chosen_handler|intros _ h''].
    apply menus_send_le.
  - split.
    { intros Hmenu. unfold events. rewrite (menu_command_run w h Hmenu).
      reflexivity. }
    split.
    { intros Hmenu Htext Habs. unfold welcome_outcome in Habs.
      unfold events, start, show_main_menu, try_except, bind, open_file, send,
        logging.
      change (reply_text (py "Please choose an option:")
                (Some get_main_menu_keyboard)) with choose_menu.
      destruct (open_rb w WELCOME_IMAGE) as [e|];
        cbn [absorbed_by_start] in Habs.
      - rewrite Habs. cbn [app]. rewrite Htext, Hmenu. reflexivity.
      - rewrite app_nil_r.
        destruct (chat w h (reply_photo WELCOME_IMAGE WELCOME)) as [e|];
          cbn [absorbed_by_start] in Habs.
        + cbn [app]. rewrite Habs, Htext, Hmenu. reflexivity.
        + cbn [app]. rewrite Hmenu. reflexivity. }
    split.
    { intros e Hout Hclass. unfold welcome_outcome in Hout.
      unfold events, start, show_main_menu, try_except, bind, open_file, send,
        logging.
      destruct (open_rb w WELCOME_IMAGE) as [e0|].
      - injection Hout as ->. rewrite Hclass. reflexivity.
      - rewrite app_nil_r, Hout. cbn [app]. rewrite Hclass. reflexivity. }
    split.
    { intros Hanswer Htext data. apply menus_click; assumption. }
    intros data Hrefused. unfold events, button_click, bind, send.
    destruct (chat w h answer) as [e|]; [reflexivity|contradiction].
Qed.

Lemma menu_shown_once_witness :
  let w := sample_world (Some (FileNotFoundError (py "welcome_image.jpg")))
             (Ok (Some [sample_row; short_row])) true in
  let v := sample_world None
             (Raise (OtherError (py "The read operation timed out"))) false in
  (menus (delivered (events (menu_command w) [])) = 1
   /\ menus (delivered (events (start w) [])) = 1
   /\ menus (delivered (events (start v) [])) = 1
   /\ (forall data, menus (delivered (events (button_click w data) [])) = 1)
   /\ (forall data, menus (delivered (events (button_click v data) [])) = 1))
  /\ menus (delivered (events (start photo_refusing_world) [])) = 0
  /\ menus (delivered
              (events (button_click answer_refusing_world (Some (py "profile")))
                 [])) = 0.
Proof.
  intros w v.
  destruct (menu_shown_once w []) as (_ & Hmenu & Hstart & _ & Hclick & _).
  destruct (menu_shown_once v []) as (_ & _ & Hstart' & _ & Hclick' & _).
  destruct (menu_shown_once photo_refusing_world [])
    as (_ & _ & _ & Hphoto & _ & _).
  destruct (menu_shown_once answer_refusing_world [])
    as (_ & _ & _ & _ & _ & Hanswer).
  split; [split; [|split; [|split; [|split]]]|split].
  - apply Hmenu. intros h; reflexivity.
  - apply Hstart; [intros h; reflexivity|intros h; reflexivity|reflexivity].
  - apply Hstart'; [intros h; reflexivity|intros h; reflexivity|exact I].
  - apply Hclick; [intros h; reflexivity|intros t m h; reflexivity].
  - apply Hclick'; [intros h; reflexivity|intros t m h; reflexivity].
  - apply (Hphoto (OtherError (py "Timed out"))); reflexivity.
  - apply Hanswer. discriminate.
Defined.

(** C7, as the specification has it, at a platform where every call goes
    through: it is not the case that both [/start] and [/menu] send a
    greeting followed by the menu, because [/menu] sends the menu alone. *)
Lemma menu_command_sends_no_greeting :
  let w := sample_world None (Ok None) false in
  events (menu_command w) [] = [Called choose_menu None]
  /\ ~ (greets_then_menu (delivered (events (start w) [])) = true
        /\ greets_then_menu (delivered (events (menu_command w) [])) = true).
Proof.
  intros w. split; [reflexivity|].
  intros [_ H]. vm_compute in H. discriminate H.
Qed.

(** C7, amended. [/start] sends a greeting followed by the menu.  When
    the welcome image opens and the platform accepts the photo, the
    greeting is the welcome photo under the welcome caption, and the menu
    is the next call.  When the image file is missing
    (FileNotFoundError), no photo is attempted: a warning is logged, the
    same welcome text is sent as a plain message and, that message
    accepted, the menu is the next call.  [/menu], on every platform,
    makes one call, the menu, and sends no greeting. *)
Theorem greeting_on_start_only (w : World) (h : list event) :
  (open_rb w WELCOME_IMAGE = None ->
   chat w h (reply_photo WELCOME_IMAGE WELCOME) = None ->
   (exists o,
      events (start w) h
      = [Called (reply_photo WELCOME_IMAGE WELCOME) None; Called choose_menu o])
   /\ greets_then_menu (calls (events (start w) h)) = true)
  /\ (forall e,
        open_rb w WELCOME_IMAGE = Some e ->
        is_FileNotFoundError e = true ->
        accepts w (reply_text WELCOME None) ->
        (exists o,
           events (start w) h
           = [Logged WARNING welcome_image_not_found;
              Called (reply_text WELCOME None) None;
              Called choose_menu o])
        /\ greets_then_menu (calls (events (start w) h)) = true)
  /\ (exists o, events (menu_command w) h = [Called choose_menu o])
  /\ calls (events (menu_command w) h) = [choose_menu]
  /\ existsb is_greeting (calls (events (menu_command w) h)) = false
  /\ greets_then_menu (calls (events (menu_command w) h)) = false.
Proof.
  split; [|split].
  - intros Ho Hp.
    assert (E : exists o,
               events (start w) h
               = [Called (reply_photo WELCOME_IMAGE WELCOME) None;
                  Called choose_menu o]).
    { unfold events, start, show_main_menu, try_except, bind, open_file, send,
        logging.
      rewrite Ho, app_nil_r, Hp. cbn [app].
      match goal with
      | |- context [match chat w ?hh ?c with _ => _ end] =>
          destruct (chat w hh c)
      end; eexists; reflexivity. }
    split; [exact E|]. destruct E as [o ->]. reflexivity.
  - intros e Ho Hclass Htext.
    assert (E : exists o,
               events (start w) h
               = [Logged WARNING welcome_image_not_found;
                  Called (reply_text WELCOME None) None;
                  Called choose_menu o]).
    { unfold events, start, show_main_menu, try_except, bind, open_file, send,
        logging.
      rewrite Ho, Hclass. cbn [app]. rewrite Htext. cbn [app].
      match goal with
      | |- context [match chat w ?hh ?c with _ => _ end] =>
          destruct (chat w hh c)
      end; eexists; reflexivity. }
    split; [exact E|]. destruct E as [o ->]. reflexivity.
  - assert (E : exists o, events (menu_command w) h = [Called choose_menu o]).
    { unfold events, menu_command, show_main_menu, send.
      match goal with
      | |- context [match chat w ?hh ?c with _ => _ end] =>
          destruct (chat w hh c)
      end; eexists; reflexivity. }
    split; [exact E|]. destruct E as [o ->].
    split; [reflexivity|]. split; reflexivity.
Qed.

Lemma greeting_on_start_only_witness :
  let present := sample_world None (Ok None) false in
  let missing := sample_world (Some (FileNotFoundError (py "welcome_image.jpg")))
                   (Ok None) false in
  ((exists o,
      events (start present) []
      = [Called (reply_photo WELCOME_IMAGE WELCOME) None; Called choose_menu o])
   /\ greets_then_menu (calls (events (start present) [])) = true)
  /\ ((exists o,
        events (start missing) []
        = [Logged WARNING welcome_image_not_found;
           Called (reply_text WELCOME None) None;
           Called choose_menu o])
      /\ greets_then_menu (calls (events (start missing) [])) = true)
  /\ calls (events (menu_command present) []) = [choose_menu]
  /\ greets_then_menu (calls (events (menu_command present) [])) = false.
Proof.
  intros present missing.
  destruct (greeting_on_start_only present [])
    as (Hphoto & _ & _ & Hmenu & _ & Hnone).
  destruct (greeting_on_start_only missing []) as (_ & Htext & _).
  split; [apply Hphoto; reflexivity|].
  split; [|split; [exact Hmenu|exact Hnone]].
  apply (Htext (FileNotFoundError (py "welcome_image.jpg")));
    [reflexivity | reflexivity | intros h; reflexivity].
Defined.

(** C10. A click whose data is none of ['profile'], ['properties'] and
    ['whatsapp'] is acknowledged and answered with the menu alone: the
    handler makes the [answer] call and one menu reply, nothing between
    them. *)
Theorem unknown_button_only_menu (w : World) (h : list event)
    (data : option pystr)
    (Hprofile : data <> Some (py "profile"))
    (Hproperties : data <> Some (py "properties"))
    (Hwhatsapp : data <> Some (py "whatsapp"))
    (Hanswer : accepts w answer)
    (Hmenu : accepts w again_menu) :
  button_click w data h = ([Called answer None; Called again_menu None], Ok tt)
  /\ calls (events (button_click w data) h)
     = [answer;
        reply_text (py "What else would you like to do?")
          (Some get_main_menu_keyboard)]
  /\ menus (delivered (events (button_click w data) h)) = 1.
Proof.
  assert (E : button_click w data h
              = ([Called answer None; Called again_menu None], Ok tt)).
  { unfold button_click.
    rewrite (data_is_false data "profile" Hprofile),
      (data_is_false data "properties" Hproperties),
      (data_is_false data "whatsapp" Hwhatsapp).
    unfold bind, send, ret. rewrite Hanswer. cbn [app].
    change (reply_text (py "What else would you like to do?")
              (Some get_main_menu_keyboard)) with again_menu.
    rewrite Hmenu. reflexivity. }
  split; [exact E|]. unfold events. rewrite E. split; reflexivity.
Qed.

Lemma unknown_button_only_menu_witness :
  let w := sample_world None (Ok None) false in
  button_click w (Some (py "settings")) []
  = ([Called answer None; Called again_menu None], Ok tt).
Proof.
  intros w.
  apply (unknown_button_only_menu w [] (Some (py "settings")));
    [discriminate | discriminate | discriminate
    | intros h; reflexivity | intros h; reflexivity].
Defined.

End Dispatcher.

(** ** More on splitting and trimming *)

Section Splitting.

Lemma split_free (sep : N) (s : pystr) : ~ In sep s -> split sep s = [s].
Proof.
  induction s as [|c s IH]; [reflexivity|].
  intros Hfree. simpl.
  destruct (N.eqb_spec c sep) as [->|D]; [exfalso; apply Hfree; left; reflexivity|].
  rewrite IH; [reflexivity|]. intros I; apply Hfree; right; exact I.
Qed.

Lemma split_app_sep (sep : N) (p t : pystr) :
  ~ In sep p -> split sep (p ++ sep :: t) = p :: split sep t.
Proof.
  induction p as [|c p IH]; intros Hfree.
  - simpl. rewrite N.eqb_refl. reflexivity.
  - simpl. destruct (N.eqb_spec c sep) as [->|D];
      [exfalso; apply Hfree; left; reflexivity|].
    rewrite IH; [reflexivity|]. intros I; apply Hfree; right; exact I.
Qed.

Lemma length_split (sep : N) (s : pystr) :
  List.length (split sep s) = S (count_occ N.eq_dec s sep).
Proof.
  induction s as [|c s IH]; [reflexivity|].
  simpl split. simpl count_occ.
  destruct (N.eqb_spec c sep) as [->|D].
  - destruct (N.eq_dec sep sep) as [_|ne]; [|contradiction].
    simpl. rewrite IH; reflexivity.
  - destruct (N.eq_dec c sep) as [E|_]; [contradiction|].
    destruct (split sep s) as [|seg rest]; simpl in *; lia.
Qed.

Lemma lstrip_fixed (s : pystr) : starts_with_space s = false -> lstrip s = s.
Proof. destruct s as [|c s]; simpl; [reflexivity|]. intros ->; reflexivity. Qed.

Lemma strip_fixed (s : pystr) :
  starts_with_space s = false -> ends_with_space s = false -> strip s = s.
Proof.
  intros Hs He. unfold strip, rstrip. rewrite (lstrip_fixed s Hs).
  unfold ends_with_space in He. rewrite (lstrip_fixed (rev s) He).
  apply rev_involutive.
Qed.

Lemma lstrip_blank (s : pystr) : forallb isspace s = true -> lstrip s = [].
Proof.
  induction s as [|c s IH]; [reflexivity|]. simpl.
  intros H. apply andb_true_iff in H as [Hc Hs]. rewrite Hc. apply IH, Hs.
Qed.

Lemma blank_has_no_comma (s : pystr) :
  forallb isspace s = true -> ~ In COMMA s.
Proof.
  intros H I. rewrite forallb_forall in H. specialize (H COMMA I).
  discriminate H.
Qed.

(** X1. Splitting on a character and joining with it are inverse to each
    other: joining the segments of a string gives the string back, and
    splitting the join of a list of segments that is not empty and whose
    segments are free of the separator gives the list back. *)
Theorem split_join_inverse (sep : N) :
  (forall s, join [sep] (split sep s) = s)
  /\ forall segments,
       segments <> [] ->
       Forall (fun seg => ~ In sep seg) segments ->
       split sep (join [sep] segments) = segments.
Proof.
  split; [apply join_split|].
  induction segments as [|p rest IH]; [intros NE; contradiction|].
  intros _ Hfree. inversion Hfree as [|? ? Hp Hrest]; subst.
  destruct rest as [|q rest].
  - simpl. apply split_free, Hp.
  - change (join [sep] (p :: q :: rest))
      with (p ++ sep :: join [sep] (q :: rest)).
    rewrite (split_app_sep sep p _ Hp), IH; [reflexivity|discriminate|exact Hrest].
Qed.

Lemma split_join_inverse_witness :
  split COMMA (join [COMMA] [py "a.jpg"; py " b.jpg"; []])
  = [py "a.jpg"; py " b.jpg"; []].
Proof.
  apply (proj2 (split_join_inverse COMMA)); [discriminate|].
  repeat constructor; vm_compute; intuition discriminate.
Defined.

(** X2. A field gives one image URL more than it has commas, and for a
    row of six fields or more this is the number of photos in the media
    group that the loop body posts. *)
Theorem one_photo_per_segment (w : World) (row : list pystr) (h : list event)
    (Hlen : 6 <= List.length row) :
  exists field group o more,
    getitem row 5 = Ok field
    /\ List.length (image_urls field) = S (count_occ N.eq_dec field COMMA)
    /\ events (render_row w row) h = Called (reply_media_group group) o :: more
    /\ List.length group = S (count_occ N.eq_dec field COMMA).
Proof.
  destruct (render_row_long w row Hlen)
    as (info & field & first & rest & Ei & Ef & Eu & Erun).
  assert (L : List.length (image_urls field)
              = S (count_occ N.eq_dec field COMMA)).
  { unfold image_urls. rewrite length_map. apply length_split. }
  exists field, (captioned first info :: map photo rest).
  unfold events. rewrite Erun. unfold try_except, send.
  destruct (chat w h _) as [e0|]; cbn [fst Exception].
  - unfold bind, logging, send. destruct (chat w _ _); cbn [fst app];
      eexists; eexists; (split; [exact Ef|]); (split; [exact L|]);
      (split; [reflexivity|]);
      rewrite <- L, Eu; simpl; rewrite length_map; reflexivity.
  - eexists; eexists; (split; [exact Ef|]); (split; [exact L|]);
      (split; [reflexivity|]).
    rewrite <- L, Eu; simpl; rewrite length_map; reflexivity.
Qed.

Lemma one_photo_per_segment_witness :
  exists field group o more,
    getitem sample_row 5 = Ok field
    /\ List.length (image_urls field) = S (count_occ N.eq_dec field COMMA)
    /\ events (render_row (sample_world None (Ok None) false) sample_row) []
       = Called (reply_media_group group) o :: more
    /\ List.length group = S (count_occ N.eq_dec field COMMA).
Proof.
  apply (one_photo_per_segment (sample_world None (Ok None) false)
           sample_row []).
  simpl; lia.
Defined.

(** X3. Trimming is idempotent, and every image URL of a field is clean:
    trimming it again changes nothing, it holds no comma, and it neither
    begins nor ends with white space. *)
Theorem image_urls_clean (field : pystr) :
  (forall s, strip (strip s) = strip s)
  /\ Forall (fun url =>
               strip url = url
               /\ ~ In COMMA url
               /\ starts_with_space url = false
               /\ ends_with_space url = false)
       (image_urls field).
Proof.
  assert (Idem : forall s, strip (strip s) = strip s).
  { intros s. destruct (strip_trims s) as (l & r & _ & _ & _ & Hs & He).
    apply strip_fixed; assumption. }
  split; [exact Idem|].
  unfold image_urls. apply Forall_forall. intros url Hin.
  apply in_map_iff in Hin as (seg & <- & Hseg).
  pose proof (split_segments_free COMMA field) as Hfree.
  rewrite Forall_forall in Hfree. specialize (Hfree seg Hseg).
  destruct (strip_trims seg) as (l & r & E & _ & _ & Hs & He).
  split; [apply Idem|]. split; [|split; assumption].
  intros I. apply Hfree. rewrite E.
  apply in_or_app; right. apply in_or_app; left. exact I.
Qed.

(** X4. A field that is empty or holds only white space still gives one
    image URL, the empty string: the loop body posts a media group of a
    single captioned photo with an empty URL, and the fallback text for
    it ends right after ["Images: "]. *)
Theorem blank_field_one_empty_url (w : World) (row : list pystr)
    (h : list event) (field : pystr)
    (Hlen : 6 <= List.length row)
    (Hfield : getitem row 5 = Ok field)
    (Hblank : forallb isspace field = true) :
  image_urls field = [[]]
  /\ exists info o more,
       property_info row = Ok info
       /\ events (render_row w row) h
          = Called (reply_media_group [captioned [] info]) o :: more
       /\ fallback_text info (image_urls field)
          = info ++ NL ++ NL ++ py "Images: ".
Proof.
  assert (Eu : image_urls field = [[]]).
  { unfold image_urls. rewrite (split_free COMMA field (blank_has_no_comma field Hblank)).
    simpl. unfold strip. rewrite (lstrip_blank field Hblank). reflexivity. }
  split; [exact Eu|].
  destruct (render_row_long w row Hlen)
    as (info & field' & first & rest & Ei & Ef & Eu' & Erun).
  rewrite Hfield in Ef. injection Ef as <-.
  rewrite Eu in Eu'. injection Eu' as <- <-.
  exists info. unfold events. rewrite Erun. unfold try_except, send.
  destruct (chat w h _) as [e0|]; cbn [fst Exception].
  - unfold bind, logging, send. destruct (chat w _ _); cbn [fst app];
      eexists; eexists; (split; [exact Ei|]); (split; [reflexivity|]);
      rewrite Eu; unfold fallback_text; simpl join; rewrite app_nil_r;
      reflexivity.
  - eexists; eexists; (split; [exact Ei|]); (split; [reflexivity|]).
    rewrite Eu; unfold fallback_text; simpl join; rewrite app_nil_r;
      reflexivity.
Qed.

Lemma blank_field_one_empty_url_witness :
  image_urls (py "  ") = [[]].
Proof.
  apply (blank_field_one_empty_url (sample_world None (Ok None) false)
           blank_row [] (py "  "));
    [simpl; lia | reflexivity | reflexivity].
Defined.

End Splitting.

(** ** More on the loop body *)

Section LoopBody.

(** X5. The display text needs exactly the first five fields: it exists
    for every row of five fields or more and is an IndexError below
    that.  The guard asks for six, so a row of exactly five fields, a
    listing whose image cell is missing, has a display text and is
    skipped all the same. *)
Theorem display_text_needs_five_fields (row : list pystr) :
  (5 <= List.length row -> exists info, property_info row = Ok info)
  /\ (List.length row < 5 ->
      property_info row = Raise (IndexError (py "list index out of range")))
  /\ (List.length row = 5 ->
      forall w h, calls (events (render_row w row) h) = []).
Proof.
  split; [|split].
  - intros H.
    destruct row as [|a [|b [|c [|d [|e tl]]]]]; simpl in H; try lia.
    eexists; reflexivity.
  - intros H.
    destruct row as [|a [|b [|c [|d [|e tl]]]]]; simpl in H; try lia;
      reflexivity.
  - intros H w h. unfold events.
    rewrite (render_row_short w row h); [reflexivity|lia].
Qed.

Lemma display_text_needs_five_fields_witness :
  (exists info, property_info (firstn 5 sample_row) = Ok info)
  /\ property_info short_row = Raise (IndexError (py "list index out of range"))
  /\ calls (events (render_row (sample_world None (Ok None) false)
                      (firstn 5 sample_row)) []) = [].
Proof.
  split; [|split].
  - apply (proj1 (display_text_needs_five_fields (firstn 5 sample_row))).
    simpl; lia.
  - apply (proj1 (proj2 (display_text_needs_five_fields short_row))).
    simpl; lia.
  - apply (proj2 (proj2 (display_text_needs_five_fields (firstn 5 sample_row)))).
    reflexivity.
Defined.

(** X6. The loop body reads a row through its first six fields only:
    any further fields change nothing in what it does. *)
Theorem render_row_first_six (w : World) (row : list pystr) (h : list event) :
  render_row w row h = render_row w (firstn 6 row) h.
Proof.
  destruct (Nat.leb_spec 6 (List.length row)) as [Hlen|Hlen].
  - destruct (long_row row Hlen) as (a & b & c & d & e & f & tl & ->).
    reflexivity.
  - rewrite firstn_all2; [reflexivity|lia].
Qed.

End LoopBody.

(** ** A whole run of the listings handler *)

Section ListingRun.

Variable w : World.
Hypothesis Htext : text_accepting w.

Lemma calls_app (a b : list event) : calls (a ++ b) = calls a ++ calls b.
Proof.
  induction a as [|[c o|l r] a IH]; simpl; congruence.
Qed.

Lemma property_info_head (row : list pystr) (info : pystr) :
  property_info row = Ok info -> exists t, info = 128176%N :: t.
Proof.
  destruct row as [|a [|b [|c [|d [|e tl]]]]]; try discriminate.
  cbv [property_info rbind getitem nth_error]. intros E. injection E as <-.
  eexists; reflexivity.
Qed.

Lemma fallback_is_not_fetch_error (row : list pystr) (info : pystr)
    (urls : list pystr) :
  property_info row = Ok info ->
  reply_text (fallback_text info urls) None <> reply_text FETCH_ERROR None.
Proof.
  intros Ei E. destruct (property_info_head row info Ei) as [t ->].
  injection E as E. discriminate E.
Qed.

(** On a platform that accepts text replies the loop body always
    returns: a rendered row leaves one message, a skipped row none. *)
Lemma render_row_text_accepting (row : list pystr) (h : list event) :
  exists es,
    render_row w row h = (es, Ok tt)
    /\ (if renders row
        then exists c, delivered es = [c] /\ listing_message row c
        else delivered es = [])
    /\ Forall (fun c => c <> reply_text FETCH_ERROR None) (calls es).
Proof.
  unfold renders. destruct (Nat.leb_spec 6 (List.length row)) as [Hlen|Hlen].
  - destruct (render_row_long w row Hlen)
      as (info & field & first & rest & Ei & Ef & Eu & Erun).
    rewrite Erun. unfold try_except, send.
    destruct (chat w h _) as [e0|]; cbn [Exception].
    + unfold bind, logging, send. cbn [app]. rewrite Htext.
      eexists. split; [reflexivity|]. split.
      * eexists. split; [reflexivity|].
        exists info, field, first, rest. auto.
      * cbn [calls app]. constructor; [discriminate|].
        constructor; [|constructor].
        apply (fallback_is_not_fetch_error row), Ei.
    + eexists. split; [reflexivity|]. split.
      * eexists. split; [reflexivity|].
        exists info, field, first, rest. auto.
      * cbn [calls]. constructor; [discriminate|constructor].
  - rewrite (render_row_short w row h Hlen).
    eexists. split; [reflexivity|]. split; [reflexivity|constructor].
Qed.

Lemma loop_text_accepting (rows : list (list pystr)) (h : list event) :
  exists es,
    for_each rows (render_row w) h = (es, Ok tt)
    /\ Forall2 listing_message (filter renders rows) (delivered es)
    /\ Forall (fun c => c <> reply_text FETCH_ERROR None) (calls es).
Proof.
  revert h. induction rows as [|row rows IH]; intros h.
  - exists []. repeat split; constructor.
  - destruct (render_row_text_accepting row h) as (es1 & E1 & D1 & C1).
    destruct (IH (h ++ es1)) as (es2 & E2 & D2 & C2).
    exists (es1 ++ es2). cbn [for_each]. unfold bind. rewrite E1, E2.
    split; [reflexivity|]. split.
    + rewrite delivered_app. cbn [filter]. destruct (renders row).
      * destruct D1 as (c & -> & Hc). constructor; assumption.
      * rewrite D1. exact D2.
    + rewrite calls_app. apply Forall_app. split; assumption.
Qed.

(** The three ways a run of the handler goes on such a platform. *)
Lemma list_properties_run (h : list event) :
  match sheets_get w (SPREADSHEET_ID w) RANGE_NAME with
  | Raise e =>
      list_properties w h
      = (failed_fetch_records w e ++ [Called (reply_text FETCH_ERROR None) None],
         Ok tt)
  | Ok response =>
      let opening :=
        [Logged INFO (fetching_properties (SPREADSHEET_ID w));
         Logged INFO (using_range RANGE_NAME);
         Logged INFO (fetched_rows (List.length (get_values response)))] in
      match get_values response with
      | [] =>
          list_properties w h
          = (opening ++ [Called (reply_text NO_PROPERTIES None) None], Ok tt)
      | _ :: _ =>
          exists es,
            list_properties w h
            = (opening ++ es ++ [Called (reply_text CLOSING None) None], Ok tt)
            /\ Forall2 listing_message
                 (filter renders (get_values response)) (delivered es)
            /\ Forall (fun c => c <> reply_text FETCH_ERROR None) (calls es)
      end
  end.
Proof.
  destruct (sheets_get w (SPREADSHEET_ID w) RANGE_NAME) as [response|e] eqn:Ef.
  - cbv zeta. destruct (get_values response) as [|row rows] eqn:Ev.
    + unfold list_properties, try_except, bind, logging, execute_get, send.
      cbn [fst snd app]. rewrite Ef. cbn [app]. rewrite Ev.
      cbn [truthy negb List.length]. rewrite Htext. reflexivity.
    + unfold list_properties, try_except.
      unfold bind at 1. unfold logging at 1. cbn [app].
      unfold bind at 1. unfold logging at 1. cbn [app].
      unfold bind at 1. unfold execute_get at 1. rewrite Ef. cbv zeta.
      rewrite Ev. unfold bind at 1. unfold logging at 1.
      cbn [truthy negb]. unfold bind at 1.
      match goal with
      | |- context [for_each ?xs ?b ?hh] =>
          destruct (loop_text_accepting xs hh) as (es & E & D & C); rewrite E
      end.
      unfold send. rewrite Htext.
      exists es. split; [|split; assumption].
      cbn [app]. reflexivity.
  - unfold list_properties, try_except, bind, logging, execute_get, send.
    cbn [fst snd app]. rewrite Ef. cbn [app Exception]. rewrite Htext.
    reflexivity.
Qed.

(** The same loop, event by event: each row leaves its own trace. *)
Lemma render_row_trace (row : list pystr) (h : list event) :
  exists es, render_row w row h = (es, Ok tt) /\ listing_trace row es.
Proof.
  unfold listing_trace, renders.
  destruct (Nat.leb_spec 6 (List.length row)) as [Hlen|Hlen].
  - destruct (render_row_long w row Hlen)
      as (info & field & first & rest & Ei & Ef & Eu & Erun).
    rewrite Erun. unfold try_except, send.
    destruct (chat w h _) as [e0|]; cbn [Exception].
    + unfold bind, logging, send. cbn [app]. rewrite Htext.
      eexists. split; [reflexivity|].
      exists info, field, first, rest. repeat (split; [assumption|]).
      right. exists e0. reflexivity.
    + eexists. split; [reflexivity|].
      exists info, field, first, rest. repeat (split; [assumption|]).
      left. reflexivity.
  - rewrite (render_row_short w row h Hlen). eexists. split; reflexivity.
Qed.

Lemma loop_trace (rows : list (list pystr)) (h : list event) :
  exists traces,
    for_each rows (render_row w) h = (concat traces, Ok tt)
    /\ Forall2 listing_trace rows traces.
Proof.
  revert h. induction rows as [|row rows IH]; intros h.
  - exists []. split; [reflexivity|constructor].
  - destruct (render_row_trace row h) as (es1 & E1 & T1).
    destruct (IH (h ++ es1)) as (traces & E2 & T2).
    exists (es1 :: traces). cbn [for_each concat]. unfold bind.
    rewrite E1, E2. split; [reflexivity|]. constructor; assumption.
Qed.

(** A run over a sheet that has rows: the three opening records, the
    events of the loop, the closing message. *)
Lemma list_properties_rows (h : list event)
    (response : option (list (list pystr))) :
  sheets_get w (SPREADSHEET_ID w) RANGE_NAME = Ok response ->
  get_values response <> [] ->
  exists hh,
    list_properties w h
    = ([Logged INFO (fetching_properties (SPREADSHEET_ID w));
        Logged INFO (using_range RANGE_NAME);
        Logged INFO (fetched_rows (List.length (get_values response)))]
         ++ events (for_each (get_values response) (render_row w)) hh
         ++ [Called (reply_text CLOSING None) None], Ok tt).
Proof.
  intros Ef Hne. destruct (get_values response) as [|row rows] eqn:Ev;
    [contradiction|].
  unfold list_properties, try_except.
  unfold bind at 1. unfold logging at 1. cbn [app].
  unfold bind at 1. unfold logging at 1. cbn [app].
  unfold bind at 1. unfold execute_get at 1. rewrite Ef. cbv zeta.
  rewrite Ev. unfold bind at 1. unfold logging at 1.
  cbn [truthy negb]. unfold bind at 1.
  match goal with
  | |- context [for_each ?xs ?b ?hh] =>
      exists hh; unfold events;
      destruct (loop_text_accepting xs hh) as (es & E & _ & _); rewrite E
  end.
  unfold send. rewrite Htext. cbn [app fst]. reflexivity.
Qed.

End ListingRun.

Section ListingTheorems.

(** X7. On a platform that accepts text replies, a read that returns
    rows makes the listings handler go through the sheet in order and
    return normally.  Its trace is the three opening records, then for
    each row the row's own events, then the closing contact message.  A
    row of six fields or more gives the post of its media group and, only
    when that post was refused, the ERROR record and its fallback text; a
    shorter row gives its WARNING record.  So the user receives exactly
    one message for each row of six fields or more, in the order of the
    sheet, and then the closing message. *)
Theorem listings_delivered_in_order (w : World) (h : list event)
    (response : option (list (list pystr)))
    (Htext : text_accepting w)
    (Hfetch : sheets_get w (SPREADSHEET_ID w) RANGE_NAME = Ok response)
    (Hrows : get_values response <> []) :
  exists traces messages,
    events (list_properties w) h
    = [Logged INFO (fetching_properties (SPREADSHEET_ID w));
       Logged INFO (using_range RANGE_NAME);
       Logged INFO (fetched_rows (List.length (get_values response)))]
        ++ concat traces ++ [Called (reply_text CLOSING None) None]
    /\ Forall2 listing_trace (get_values response) traces
    /\ delivered (events (list_properties w) h)
       = messages ++ [reply_text CLOSING None]
    /\ Forall2 listing_message (filter renders (get_values response)) messages
    /\ List.length messages
       = List.length (filter renders (get_values response))
    /\ returns (list_properties w) h = Ok tt.
Proof.
  destruct (list_properties_rows w Htext h response Hfetch Hrows) as (hh & E).
  destruct (loop_trace w Htext (get_values response) hh) as (traces & Et & T).
  destruct (loop_text_accepting w Htext (get_values response) hh)
    as (es & Ees & D & _).
  rewrite Et in Ees. injection Ees as <-.
  unfold events in E. rewrite Et in E. cbn [fst] in E.
  exists traces, (delivered (concat traces)).
  unfold events, returns. rewrite E. cbn [fst snd].
  split; [reflexivity|]. split; [exact T|].
  split; [cbn [app delivered]; rewrite delivered_app; reflexivity|].
  split; [exact D|]. split; [|reflexivity].
  symmetry. eapply Forall2_length, D.
Qed.

Lemma listings_delivered_in_order_witness :
  let rows := [short_row; sample_row; blank_row] in
  let w := sample_world None (Ok (Some rows)) true in
  exists traces messages,
    events (list_properties w) []
    = [Logged INFO (fetching_properties (SPREADSHEET_ID w));
       Logged INFO (using_range RANGE_NAME);
       Logged INFO (fetched_rows (List.length rows))]
        ++ concat traces ++ [Called (reply_text CLOSING None) None]
    /\ Forall2 listing_trace rows traces
    /\ delivered (events (list_properties w) [])
       = messages ++ [reply_text CLOSING None]
    /\ Forall2 listing_message (filter renders rows) messages
    /\ List.length messages = List.length (filter renders rows)
    /\ returns (list_properties w) [] = Ok tt.
Proof.
  intros rows w.
  apply (listings_delivered_in_order w [] (Some rows));
    [intros t m h; reflexivity | reflexivity | discriminate].
Defined.

(** X8. On a platform that accepts text replies, the listings handler
    sends the generic error message exactly when the read of the
    spreadsheet raised: a refused media group or a malformed row never
    brings it up. *)
Theorem generic_error_only_for_failed_read (w : World) (h : list event)
    (Htext : text_accepting w) :
  In (reply_text FETCH_ERROR None) (calls (events (list_properties w) h))
  <-> exists e, sheets_get w (SPREADSHEET_ID w) RANGE_NAME = Raise e.
Proof.
  pose proof (list_properties_run w Htext h) as Hrun.
  destruct (sheets_get w (SPREADSHEET_ID w) RANGE_NAME) as [response|e].
  - cbv zeta in Hrun. split; [|intros [e E]; discriminate E].
    intros Hin. exfalso. unfold events in Hin.
    destruct (get_values response) as [|row rows].
    + rewrite Hrun in Hin. cbn [fst app calls] in Hin.
      destruct Hin as [E|[]]. discriminate E.
    + destruct Hrun as (es & E & _ & C). rewrite E in Hin.
      cbn [fst app calls] in Hin. rewrite calls_app in Hin.
      apply in_app_or in Hin as [Hin|[E'|[]]].
      * rewrite Forall_forall in C. exact (C _ Hin eq_refl).
      * discriminate E'.
  - split; [intros _; exists e; reflexivity|]. intros _.
    unfold events. rewrite Hrun. unfold failed_fetch_records.
    cbn [fst app calls]. left; reflexivity.
Qed.

Lemma generic_error_only_for_failed_read_witness :
  let w := sample_world None (Ok (Some [sample_row])) true in
  In (reply_text FETCH_ERROR None) (calls (events (list_properties w) []))
  <-> exists e, sheets_get w (SPREADSHEET_ID w) RANGE_NAME = Raise e.
Proof.
  intros w.
  apply (generic_error_only_for_failed_read w []).
  intros t m h; reflexivity.
Defined.

End ListingTheorems.

(** ** A whole button click *)

Section ClickRun.

Lemma run_quiet {A} (m : M A) (h : list event) :
  no_menu m -> succeeds m ->
  exists a es, m h = (es, Ok a) /\ menus (delivered es) = 0.
Proof.
  intros Hn Hs. specialize (Hn h). destruct (Hs h) as [a Ha].
  unfold events, returns in *. destruct (m h) as [es r]; simpl in *; subst r.
  exists a, es. split; [reflexivity|exact Hn].
Qed.

Lemma text_accepting_of_cooperative (w : World) :
  cooperative w -> text_accepting w.
Proof. intros Hcoop t m. apply (coop_text w Hcoop). Qed.

(** On a cooperative platform a click is: the acknowledgement, what the
    chosen handler does, the menu. *)
Lemma button_click_run (w : World) (h : list event) (data : option pystr) :
  cooperative w ->
  exists es,
    button_click w data h
    = (Called answer None :: es ++ [Called again_menu None], Ok tt)
    /\ menus (delivered es) = 0
    /\ (data = Some (py "profile") ->
        es = [Called
                (reply_text
                   (py "Here's the Property Agent Profile: [Add profile details here]")
                   None) None])
    /\ (data = Some (py "properties") ->
        es = events (list_properties w) (h ++ [Called answer None]))
    /\ (data = Some (py "whatsapp") ->
        es = [Called
                (reply_text
                   (py "Click here to chat on WhatsApp: https://wa.me/+60175773070")
                   None) None]).
Proof.
  intros Hcoop. unfold button_click.
  unfold bind at 1. unfold send at 1. rewrite (coop_answer w Hcoop).
  match goal with
  | |- context [bind ?m ?k (h ++ [Called answer None])] =>
      destruct (run_quiet m (h ++ [Called answer None]))
        as ([] & es & E & Hq)
  end.
  { destruct (data_is data "profile"); [apply no_menu_send; reflexivity|].
    destruct (data_is data "properties"); [apply no_menu_list_properties|].
    destruct (data_is data "whatsapp"); [apply no_menu_send; reflexivity|].
    apply no_menu_ret. }
  { destruct (data_is data "profile");
      [apply succeeds_send, (coop_text w Hcoop)|].
    destruct (data_is data "properties");
      [apply succeeds_list_properties, (coop_text w Hcoop)|].
    destruct (data_is data "whatsapp");
      [apply succeeds_send, (coop_text w Hcoop)|].
    apply succeeds_ret. }
  exists es. split; [|split; [exact Hq|]].
  - unfold bind. rewrite E. unfold send. rewrite (coop_text w Hcoop).
    reflexivity.
  - split; [|split]; intros ->.
    + change (data_is (Some (py "profile")) "profile") with true in E.
      cbv iota in E. unfold send in E. rewrite (coop_text w Hcoop) in E.
      injection E as <-. reflexivity.
    + change (data_is (Some (py "properties")) "profile") with false in E.
      change (data_is (Some (py "properties")) "properties") with true in E.
      cbv iota in E. unfold events. rewrite E. reflexivity.
    + change (data_is (Some (py "whatsapp")) "profile") with false in E.
      change (data_is (Some (py "whatsapp")) "properties") with false in E.
      change (data_is (Some (py "whatsapp")) "whatsapp") with true in E.
      cbv iota zeta in E. unfold send in E. rewrite (coop_text w Hcoop) in E.
      injection E as <-. reflexivity.
Qed.

Lemma list_properties_delivers (w : World) (h : list event) :
  text_accepting w -> delivered (events (list_properties w) h) <> [].
Proof.
  intros Htext. pose proof (list_properties_run w Htext h) as Hrun.
  unfold events.
  destruct (sheets_get w (SPREADSHEET_ID w) RANGE_NAME) as [response|e].
  - cbv zeta in Hrun. destruct (get_values response) as [|row rows].
    + rewrite Hrun. discriminate.
    + destruct Hrun as (es & E & _). rewrite E. cbn [fst app delivered].
      rewrite delivered_app. intros D. apply app_eq_nil in D as [_ D].
      discriminate D.
  - rewrite Hrun. discriminate.
Qed.

(** X9. On a cooperative platform the user sees every click end with the
    menu: what is delivered is the acknowledgement first, the menu last,
    and between them the messages of the chosen handler, none of which
    is a menu; the click handler returns normally. *)
Theorem menu_closes_every_click (w : World) (h : list event)
    (data : option pystr) (Hcoop : cooperative w) :
  exists between,
    delivered (events (button_click w data) h)
    = answer :: between ++ [again_menu]
    /\ menus between = 0
    /\ returns (button_click w data) h = Ok tt.
Proof.
  destruct (button_click_run w h data Hcoop) as (es & E & Hq & _).
  exists (delivered es). unfold events, returns. rewrite E.
  split; [|split; [exact Hq|reflexivity]].
  cbn [fst delivered]. rewrite delivered_app. reflexivity.
Qed.

Lemma menu_closes_every_click_witness :
  let w := sample_world None (Ok (Some [sample_row])) true in
  exists between,
    delivered (events (button_click w (Some (py "properties"))) [])
    = answer :: between ++ [again_menu]
    /\ menus between = 0
    /\ returns (button_click w (Some (py "properties"))) [] = Ok tt.
Proof.
  intros w. apply (menu_closes_every_click w []).
  constructor.
  - intros h; reflexivity.
  - intros t m h; reflexivity.
  - intros h p c; exact I.
  - intros p; reflexivity.
Defined.

(** X10. The menu keyboard and the click handler agree: the buttons
    carry the data ['profile'], ['properties'] and ['whatsapp'], and on a
    cooperative platform a click on any button of the menu brings at
    least one message of its own before the menu comes back: the profile
    text, the messages of the listings handler, or the contact link. *)
Theorem menu_buttons_reach_handlers (w : World) (h : list event)
    (Hcoop : cooperative w) :
  map callback_data (concat get_main_menu_keyboard)
  = [py "profile"; py "properties"; py "whatsapp"]
  /\ forall b, In b (concat get_main_menu_keyboard) ->
       exists between,
         delivered (events (button_click w (Some (callback_data b))) h)
         = answer :: between ++ [again_menu]
         /\ between <> []
         /\ (callback_data b = py "profile" ->
             between
             = [reply_text
                  (py "Here's the Property Agent Profile: [Add profile details here]")
                  None])
         /\ (callback_data b = py "properties" ->
             between
             = delivered (events (list_properties w) (h ++ [Called answer None])))
         /\ (callback_data b = py "whatsapp" ->
             between
             = [reply_text
                  (py "Click here to chat on WhatsApp: https://wa.me/+60175773070")
                  None]).
Proof.
  split; [reflexivity|]. intros b Hb.
  destruct (button_click_run w h (Some (callback_data b)) Hcoop)
    as (es & E & _ & Hprofile & Hproperties & Hwhatsapp).
  exists (delivered es). unfold events at 1. rewrite E.
  split; [cbn [fst delivered]; rewrite delivered_app; reflexivity|].
  split.
  - destruct Hb as [<-|[<-|[<-|[]]]].
    + rewrite Hprofile by reflexivity. discriminate.
    + rewrite Hproperties by reflexivity.
      apply list_properties_delivers, text_accepting_of_cooperative, Hcoop.
    + rewrite Hwhatsapp by reflexivity. discriminate.
  - split; [|split]; intros D.
    + rewrite Hprofile by (rewrite D; reflexivity). reflexivity.
    + rewrite Hproperties by (rewrite D; reflexivity). reflexivity.
    + rewrite Hwhatsapp by (rewrite D; reflexivity). reflexivity.
Qed.

Lemma menu_buttons_reach_handlers_witness :
  let w := sample_world None (Ok None) false in
  map callback_data (concat get_main_menu_keyboard)
  = [py "profile"; py "properties"; py "whatsapp"]
  /\ forall b, In b (concat get_main_menu_keyboard) ->
       exists between,
         delivered (events (button_click w (Some (callback_data b))) [])
         = answer :: between ++ [again_menu]
         /\ between <> []
         /\ (callback_data b = py "profile" ->
             between
             = [reply_text
                  (py "Here's the Property Agent Profile: [Add profile details here]")
                  None])
         /\ (callback_data b = py "properties" ->
             between
             = delivered (events (list_properties w) ([] ++ [Called answer None])))
         /\ (callback_data b = py "whatsapp" ->
             between
             = [reply_text
                  (py "Click here to chat on WhatsApp: https://wa.me/+60175773070")
                  None]).
Proof.
  intros w. apply (menu_buttons_reach_handlers w []).
  constructor.
  - intros h; reflexivity.
  - intros t m h; reflexivity.
  - intros h p c; exact I.
  - intros p; reflexivity.
Defined.

End ClickRun.

(** ** Which failures leave a handler *)

Section Escapes.

Lemma escapes_ret {A} (a : A) : escapes_by_refusal (ret a).
Proof. intros h e E. discriminate E. Qed.

Lemma escapes_send (w : World) (c : call) :
  is_media_group c = false -> escapes_by_refusal (send w c).
Proof.
  intros Hc h e. unfold returns, events, send.
  destruct (chat w h c) as [e0|]; simpl; intros E; [|discriminate E].
  injection E as <-. exists [], c. split; [reflexivity|exact Hc].
Qed.

Lemma escapes_bind {A B} (m : M A) (f : A -> M B) :
  escapes_by_refusal m -> (forall a, escapes_by_refusal (f a)) ->
  escapes_by_refusal (bind m f).
Proof.
  intros Hm Hf h e. specialize (Hm h e). unfold returns, events, bind in *.
  destruct (m h) as [es [a|e0]]; simpl in *.
  - specialize (Hf a (h ++ es) e). unfold returns, events in Hf.
    destruct (f a (h ++ es)) as [es' r]; simpl in *. intros E.
    destruct (Hf E) as (es0 & c & -> & Hc).
    exists (es ++ es0), c. rewrite app_assoc. split; [reflexivity|exact Hc].
  - intros E. injection E as <-. apply Hm. reflexivity.
Qed.

(** Whatever goes wrong inside [list_properties] is caught; the one
    exception that can leave it is the refusal of the generic error
    message. *)
Lemma list_properties_escape (w : World) (h : list event) (e : exn) :
  returns (list_properties w) h = Raise e ->
  exists es,
    events (list_properties w) h
    = es ++ [Called (reply_text FETCH_ERROR None) (Some e)].
Proof.
  unfold returns, events, list_properties, try_except.
  match goal with
  | |- context [match ?b with pair _ _ => _ end] =>
      destruct b as [es [a|e0]]
  end.
  - intros E; discriminate E.
  - cbn [Exception]. unfold bind, logging, send. cbn [app].
    destruct (chat w _ (reply_text FETCH_ERROR None)) as [e1|];
      cbn [fst snd]; intros E; [|discriminate E].
    injection E as <-.
    exists (es ++ [Logged ERROR (error_fetching_properties (str_of_exn e0));
                   Logged ERROR (error_spreadsheet_id (SPREADSHEET_ID w));
                   Logged ERROR (error_range RANGE_NAME)]).
    rewrite <- app_assoc. reflexivity.
Qed.

(** X11. No failure of the spreadsheet read, of a row or of a media
    group leaves the listings handler or the click handler.  An
    exception leaves the listings handler only as the refusal of the
    generic error message, and leaves the click handler only as the
    refusal of a call that is not a media group; in both cases the
    refused call is the last thing the handler did. *)
Theorem only_refusals_escape (w : World) (data : option pystr) :
  (forall h e,
     returns (list_properties w) h = Raise e ->
     exists es,
       events (list_properties w) h
       = es ++ [Called (reply_text FETCH_ERROR None) (Some e)])
  /\ escapes_by_refusal (button_click w data).
Proof.
  split; [exact (list_properties_escape w)|].
  unfold button_click.
  apply escapes_bind; [apply escapes_send; reflexivity|intros _].
  apply escapes_bind; [|intros _; apply escapes_send; reflexivity].
  destruct (data_is data "profile"); [apply escapes_send; reflexivity|].
  destruct (data_is data "properties").
  - intros h e E. destruct (list_properties_escape w h e E) as [es Ees].
    exists es, (reply_text FETCH_ERROR None). split; [exact Ees|reflexivity].
  - destruct (data_is data "whatsapp"); [apply escapes_send; reflexivity|].
    apply escapes_ret.
Qed.

Lemma only_refusals_escape_witness :
  let e := OtherError (py "Forbidden") in
  returns (button_click refusing_world (Some (py "properties"))) [] = Raise e
  /\ exists es c,
       events (button_click refusing_world (Some (py "properties"))) []
       = es ++ [Called c (Some e)]
       /\ is_media_group c = false.
Proof.
  intros e. split; [reflexivity|].
  apply (proj2 (only_refusals_escape refusing_world (Some (py "properties")))).
  reflexivity.
Defined.

(** X12. [start] absorbs a missing welcome image and nothing else: when
    opening the image or sending the photo raises any other error, the
    error leaves the handler, and the user receives neither the greeting
    nor the menu. *)
Theorem start_fails_silently (w : World) (h : list event) (e : exn)
    (Hclass : is_FileNotFoundError e = false)
    (Hraised : open_rb w WELCOME_IMAGE = Some e
               \/ (open_rb w WELCOME_IMAGE = None
                   /\ chat w h (reply_photo WELCOME_IMAGE WELCOME) = Some e)) :
  returns (start w) h = Raise e
  /\ delivered (events (start w) h) = []
  /\ ~ In choose_menu (calls (events (start w) h))
  /\ ~ In (reply_text WELCOME None) (calls (events (start w) h)).
Proof.
  unfold returns, events, start, show_main_menu, try_except, bind, open_file,
    send, logging.
  destruct Hraised as [Ho|[Ho Hp]]; rewrite Ho.
  - rewrite Hclass. cbn [fst snd delivered calls].
    split; [reflexivity|]. split; [reflexivity|]. split; intros [].
  - rewrite app_nil_r, Hp. cbn [app]. rewrite Hclass.
    cbn [fst snd delivered calls].
    split; [reflexivity|]. split; [reflexivity|].
    split; intros [D|[]]; discriminate D.
Qed.

Lemma start_fails_silently_witness :
  returns (start refusing_world) []
  = Raise (OtherError (py "Permission denied"))
  /\ delivered (events (start refusing_world) []) = []
  /\ ~ In choose_menu (calls (events (start refusing_world) []))
  /\ ~ In (reply_text WELCOME None) (calls (events (start refusing_world) [])).
Proof.
  apply (start_fails_silently refusing_world []
           (OtherError (py "Permission denied")));
    [reflexivity | left; reflexivity].
Defined.

End Escapes.

(** ** Start-up *)

Section StartupFacts.

Import Startup.

Lemma unset_false (x : option pystr) :
  unset x = false <-> exists s, x = Some s /\ s <> [].
Proof.
  destruct x as [[|c s]|]; simpl; split.
  - discriminate.
  - intros (s' & E & NE). injection E as <-. contradiction.
  - intros _. eexists; split; [reflexivity|discriminate].
  - reflexivity.
  - discriminate.
  - intros (s' & E & _). discriminate E.
Qed.

Lemma read_settings_aborts (env : Environ) (f : fatal) :
  read_settings env = Aborted f -> exists msg, f = ValueError msg.
Proof.
  unfold read_settings. cbv zeta.
  destruct (unset (TELEGRAM_BOT_TOKEN env));
    [intros E; injection E as <-; eexists; reflexivity|].
  destruct (unset (GOOGLE_APPLICATION_CREDENTIALS env));
    [intros E; injection E as <-; eexists; reflexivity|].
  destruct (unset (GOOGLE_SHEETS_SPREADSHEET_ID env));
    [intros E; injection E as <-; eexists; reflexivity|].
  discriminate.
Qed.

(** X13. The settings are read exactly when the three environment
    variables are all set to a string that is not empty, and they are
    then these strings.  Otherwise the start-up ends in a ValueError
    that names the first variable found missing, in the order token,
    credentials file, spreadsheet. *)
Theorem settings_need_all_three (env : Environ) :
  (forall s,
     read_settings env = Ready s
     <-> (TELEGRAM_BOT_TOKEN env = Some (TOKEN s) /\ TOKEN s <> [])
         /\ (GOOGLE_APPLICATION_CREDENTIALS env = Some (SERVICE_ACCOUNT_FILE s)
             /\ SERVICE_ACCOUNT_FILE s <> [])
         /\ (GOOGLE_SHEETS_SPREADSHEET_ID env = Some (SPREADSHEET_ID s)
             /\ SPREADSHEET_ID s <> []))
  /\ (unset (TELEGRAM_BOT_TOKEN env) = true ->
      read_settings env
      = Aborted (ValueError (py "No TELEGRAM_BOT_TOKEN found in .env file")))
  /\ (unset (TELEGRAM_BOT_TOKEN env) = false ->
      unset (GOOGLE_APPLICATION_CREDENTIALS env) = true ->
      read_settings env
      = Aborted (ValueError
                   (py "No GOOGLE_APPLICATION_CREDENTIALS found in .env file")))
  /\ (unset (TELEGRAM_BOT_TOKEN env) = false ->
      unset (GOOGLE_APPLICATION_CREDENTIALS env) = false ->
      unset (GOOGLE_SHEETS_SPREADSHEET_ID env) = true ->
      read_settings env
      = Aborted (ValueError
                   (py "No GOOGLE_SHEETS_SPREADSHEET_ID found in .env file"))).
Proof.
  unfold read_settings. cbv zeta.
  split; [|split; [|split]].
  - intros [t f i]. cbn [TOKEN SERVICE_ACCOUNT_FILE SPREADSHEET_ID]. split.
    + destruct (unset (TELEGRAM_BOT_TOKEN env)) eqn:U1; [discriminate|].
      destruct (unset (GOOGLE_APPLICATION_CREDENTIALS env)) eqn:U2;
        [discriminate|].
      destruct (unset (GOOGLE_SHEETS_SPREADSHEET_ID env)) eqn:U3;
        [discriminate|].
      apply unset_false in U1 as (s1 & E1 & N1).
      apply unset_false in U2 as (s2 & E2 & N2).
      apply unset_false in U3 as (s3 & E3 & N3).
      rewrite E1, E2, E3. cbn [value_of]. intros E.
      injection E as <- <- <-. repeat split; assumption.
    + intros ((E1 & N1) & (E2 & N2) & (E3 & N3)).
      rewrite E1, E2, E3.
      destruct t; [contradiction|]. destruct f; [contradiction|].
      destruct i; [contradiction|]. reflexivity.
  - intros ->. reflexivity.
  - intros -> ->. reflexivity.
  - intros -> -> ->. reflexivity.
Qed.

Lemma settings_need_all_three_witness :
  read_settings sample_environ
  = Ready {| TOKEN := py "123:abc";
             SERVICE_ACCOUNT_FILE := py "service.json";
             SPREADSHEET_ID := py "sheet-1" |}
  /\ read_settings
       {| TELEGRAM_BOT_TOKEN := Some (py "123:abc");
          GOOGLE_APPLICATION_CREDENTIALS := Some [];
          GOOGLE_SHEETS_SPREADSHEET_ID := None |}
     = Aborted (ValueError
                  (py "No GOOGLE_APPLICATION_CREDENTIALS found in .env file")).
Proof.
  split.
  - apply (proj1 (settings_need_all_three sample_environ)).
    cbn. repeat split; discriminate.
  - apply (proj1 (proj2 (proj2 (settings_need_all_three _))));
      reflexivity.
Defined.

(** X14. Loading the module succeeds exactly when the settings are read,
    the credentials load and the service is built, and then three INFO
    records are logged.  A missing variable ends it before anything is
    logged.  A failure of the set-up is raised again after it has been
    logged: the log then ends with the ERROR record of that exception
    and holds only INFO records before it. *)
Theorem load_module_outcomes (env : Environ) (g : Google)
    (log : list (level * setup_record)) :
  (forall s,
     load_module env g = (log, Ready s)
     <-> read_settings env = Ready s
         /\ exists creds,
              from_service_account_file g (SERVICE_ACCOUNT_FILE s) = Ok creds
              /\ build g creds = Ok tt
              /\ log = [(INFO, loading_service_account (SERVICE_ACCOUNT_FILE s));
                        (INFO, loaded_credentials (service_account_email creds));
                        (INFO, built_sheets_service)])
  /\ (forall msg,
        load_module env g = (log, Aborted (ValueError msg)) ->
        log = [] /\ read_settings env = Aborted (ValueError msg))
  /\ (forall e,
        load_module env g = (log, Aborted (Reraised e)) ->
        exists before,
          log = before ++ [(ERROR, error_setting_up (str_of_exn e))]
          /\ Forall (fun r => fst r = INFO) before).
Proof.
  unfold load_module, setup_sheets. split; [|split].
  - intros s. split.
    + destruct (read_settings env) as [s'|f]; [|discriminate].
      destruct (from_service_account_file g (SERVICE_ACCOUNT_FILE s'))
        as [creds|e] eqn:Ec; [|discriminate].
      destruct (build g creds) as [[]|e] eqn:Eb; [|discriminate].
      cbv zeta. intros E. injection E as <- <-.
      split; [reflexivity|]. exists creds. rewrite Ec. auto.
    + intros (-> & creds & Ec & Eb & ->). rewrite Ec, Eb. reflexivity.
  - intros msg. destruct (read_settings env) as [s'|f].
    + destruct (from_service_account_file g (SERVICE_ACCOUNT_FILE s'))
        as [creds|e]; [|discriminate].
      destruct (build g creds) as [[]|e]; discriminate.
    + intros E. injection E as <- ->. split; reflexivity.
  - intros e. destruct (read_settings env) as [s'|f] eqn:Er.
    + destruct (from_service_account_file g (SERVICE_ACCOUNT_FILE s'))
        as [creds|e0].
      * destruct (build g creds) as [[]|e0]; [discriminate|].
        cbv zeta. intros E. injection E as <- <-.
        eexists [_; _]. split; [reflexivity|]. repeat constructor.
      * cbv zeta. intros E. injection E as <- <-.
        eexists [_]. split; [reflexivity|]. repeat constructor.
    + intros E. injection E as <- ->.
      destruct (read_settings_aborts env _ Er) as [msg D]. discriminate D.
Qed.

Lemma load_module_outcomes_witness :
  let s := {| TOKEN := py "123:abc";
              SERVICE_ACCOUNT_FILE := py "service.json";
              SPREADSHEET_ID := py "sheet-1" |} in
  let log := [(INFO, loading_service_account (py "service.json"));
              (INFO, loaded_credentials (py "bot@project.iam"));
              (INFO, built_sheets_service)] in
  read_settings sample_environ = Ready s
  /\ exists creds,
       from_service_account_file sample_google (SERVICE_ACCOUNT_FILE s)
       = Ok creds
       /\ build sample_google creds = Ok tt
       /\ log = [(INFO, loading_service_account (SERVICE_ACCOUNT_FILE s));
                 (INFO, loaded_credentials (service_account_email creds));
                 (INFO, built_sheets_service)].
Proof.
  intros s log.
  apply (proj1 (proj1 (load_module_outcomes sample_environ sample_google log) s)).
  reflexivity.
Defined.

End StartupFacts.
